(** * Thunder Hole tracker: tide direction, optimal viewing time and fetch

    A shallow embedding of the computational core of
    [src/components/thunder-hole-tracker.tsx]:

    - [getCurrentTideDirection] (lines 94-105),
    - [calculateThunderHoleTime] (lines 107-143),
    - [fetchNOAATideData] (lines 36-92), with the React state setters it
      calls recorded as a trace of updates.

    Conventions of the model.

    - A JavaScript time value (what [Date.prototype.getTime] returns) is an
      integral number of milliseconds since the epoch, or NaN for an
      invalid date: [TimeValue].  Every comparison with NaN is false.
      A date holds a time value of at most 8.64e15 in absolute value:
      [new Date(n)] is an invalid date beyond ([newDate]).
      [Date.now()] and [new Date()] always give a valid time value, so the
      current instant is a plain [Z].
    - For [setHours], local time is UTC shifted by a constant offset
      [localOffset] (milliseconds east of UTC): a clock change between
      [now] and 06:00 or 19:30 of its day is not modelled.  The dates of
      the request take the offset in force at each of their two
      instants.
    - Locale renderings ([toLocaleTimeString], [toLocaleDateString]), the
      height rendering [parseFloat(v).toFixed(1)] and the string parser of
      [new Date(string)] are parameters of the model.
    - [hoursFromNow] is the exact rational quotient; the rounding of the
      IEEE double division is not modelled.
    - The request itself (the URL of lines 41-49) only decides what the
      upstream service answers; the answer is an input of the model.  The
      refresh timer (lines 145-150) and the markup (lines 152-321) are
      not modelled. *)

From Stdlib Require Import ZArith List String Ascii Bool Lia QArith DecimalString.
Import ListNotations.
Local Open Scope string_scope.
Local Open Scope list_scope.
Local Open Scope Z_scope.

(** ** Time values *)

Inductive TimeValue : Type :=
| Valid (ms : Z)
| Invalid.

(** [a > b], [a < b], [a >= b], [a <= b] on numbers, the right operand
    being a valid instant. *)
Definition tv_gtb (a : TimeValue) (b : Z) : bool :=
  match a with Valid x => b <? x | Invalid => false end.

Definition tv_ltb (a : TimeValue) (b : Z) : bool :=
  match a with Valid x => x <? b | Invalid => false end.

Definition tv_geb (a : TimeValue) (b : Z) : bool :=
  match a with Valid x => b <=? x | Invalid => false end.

Definition tv_leb (a : TimeValue) (b : Z) : bool :=
  match a with Valid x => x <=? b | Invalid => false end.

(** [a + d] on numbers, for a finite [d]: NaN is absorbing. *)
Definition tv_add (a : TimeValue) (d : Z) : TimeValue :=
  match a with Valid x => Valid (x + d) | Invalid => Invalid end.

(** The largest time value of a date: 100,000,000 days. *)
Definition maxTime : Z := 8640000000000000.

(** [new Date(n)]: the date of time value [n], an invalid date when [n]
    is NaN or beyond the range of time values. *)
Definition newDate (n : TimeValue) : TimeValue :=
  match n with
  | Valid x => if (- maxTime <=? x) && (x <=? maxTime) then Valid x else Invalid
  | Invalid => Invalid
  end.

Definition msPerMinute : Z := 60 * 1000.
Definition msPerHour : Z := 60 * 60 * 1000.
Definition msPerDay : Z := 24 * msPerHour.

(** ** Data model (lines 4-20) *)

Record Prediction : Type := mkPrediction {
  p_t : string;
  p_v : string;
  p_type : string
}.

Record Tide : Type := mkTide {
  time : string;
  date : string;
  height : string;
  type : string;
  timestamp : TimeValue
}.

Record Coordinates : Type := mkCoordinates { lat : Q; lon : Q }.

(** [nextTide] is [tides.find(...) || tides[0]], which is [undefined] on an
    empty array: [None]. *)
Record TideData : Type := mkTideData {
  location : string;
  coordinates : Coordinates;
  tides : list Tide;
  nextTide : option Tide;
  currentTide : string
}.

(** The object returned by [calculateThunderHoleTime] (lines 132-138). *)
Record ThunderHoleTime : Type := mkThunderHoleTime {
  th_time : string;
  th_date : string;
  relatedTide : Tide;
  th_timestamp : Z;
  hoursFromNow : Q
}.

(** [arr.slice(-1)[0]]: the last element, [undefined] on an empty array. *)
Fixpoint lastElement {A : Type} (l : list A) : option A :=
  match l with
  | [] => None
  | [x] => Some x
  | _ :: rest => lastElement rest
  end.

(** ** Tide direction (lines 94-105) *)

Definition isFuture (now : Z) (tide : Tide) : bool := tv_gtb (timestamp tide) now.
Definition isPast (now : Z) (tide : Tide) : bool := tv_ltb (timestamp tide) now.

Definition getCurrentTideDirection (tides : list Tide) (now : Z) : string :=
  let futureTides := filter (isFuture now) tides in
  if (List.length futureTides <? 2)%nat then "Unknown"
  else
    match futureTides with
    | [] => "Unknown" (* not reached: the array has two elements or more *)
    | nextTide :: _ =>
        match lastElement (filter (isPast now) tides) with
        | None => "Unknown"
        | Some _prevTide =>
            if String.eqb (type nextTide) "High" then "Rising" else "Falling"
        end
    end.

(** ** Optimal viewing time (lines 107-143) *)

Section Tracker.

(** Milliseconds to add to UTC to obtain local time. *)
Variable localOffset : Z.
(** Locale renderings of a date (of an invalid one too). *)
Variable toLocaleTimeString : TimeValue -> string.
Variable toLocaleDateString : TimeValue -> string.

(** [d.setHours(h, m, 0, 0)] on a copy of the date [d]: the same local
    calendar day, at [h]:[m]:00.000 local time. *)
Definition setHours (d : Z) (h m : Z) : Z :=
  ((d + localOffset) / msPerDay) * msPerDay + h * msPerHour + m * msPerMinute
  - localOffset.

(** Lines 119-128: the date of the tide, and the date two hours past it
    for a low tide, three hours past it for any other. *)
Definition candidateTime (tide : Tide) : TimeValue :=
  let tideTime := newDate (timestamp tide) in
  if String.eqb (type tide) "Low"
  then newDate (tv_add tideTime (2 * 60 * 60 * 1000))
  else newDate (tv_add tideTime (3 * 60 * 60 * 1000)).

(** The test of line 131. *)
Definition inDaylightAndFuture (now sunrise sunset : Z) (thunderHoleTime : TimeValue) : bool :=
  tv_gtb thunderHoleTime now && tv_geb thunderHoleTime sunrise
  && tv_leb thunderHoleTime sunset.

(** The [for ... of] loop of lines 117-140, returning at the first tide
    that passes the test; [None] is the [null] of line 142.  The test
    fails on NaN, so the returned candidate is a valid time value. *)
Fixpoint scanTides (now sunrise sunset : Z) (tides : list Tide) : option ThunderHoleTime :=
  match tides with
  | [] => None
  | tide :: rest =>
      let thunderHoleTime := candidateTime tide in
      if inDaylightAndFuture now sunrise sunset thunderHoleTime then
        match thunderHoleTime with
        | Valid c =>
            Some {| th_time := toLocaleTimeString thunderHoleTime;
                    th_date := toLocaleDateString thunderHoleTime;
                    relatedTide := tide;
                    th_timestamp := c;
                    hoursFromNow := Qmake (c - now) (1000 * 60 * 60)%positive |}
        | Invalid => scanTides now sunrise sunset rest
        end
      else scanTides now sunrise sunset rest
  end.

Definition calculateThunderHoleTime (now : Z) (tides : list Tide) : option ThunderHoleTime :=
  let sunrise := setHours now 6 0 in
  let sunset := setHours now 19 30 in
  scanTides now sunrise sunset tides.

(** ** Fetching and normalising (lines 36-92) *)

(** [new Date(s).getTime()] and [parseFloat(s).toFixed(1)]. *)
Variable dateParse : string -> TimeValue.
Variable heightToFixed1 : string -> string.

(** Lines 63-69: one tide per prediction, in the order of the array. *)
Definition normalize (prediction : Prediction) : Tide :=
  {| time := toLocaleTimeString (dateParse (p_t prediction));
     date := toLocaleDateString (dateParse (p_t prediction));
     height := heightToFixed1 (p_v prediction);
     type := if String.eqb (p_type prediction) "H" then "High" else "Low";
     timestamp := dateParse (p_t prediction) |}.

(** Line 79: [tides.find(tide => tide.timestamp > now) || tides[0]]. *)
Definition findNextTide (now : Z) (tides : list Tide) : option Tide :=
  match find (isFuture now) tides with
  | Some tide => Some tide
  | None => hd_error tides
  end.

Definition LOCATION_name : string := "Swan's Island, Maine".
Definition LOCATION_lat : Q := Qmake 441539 10000.
Definition LOCATION_lon : Q := Qmake (-684447) 10000.

(** Lines 75-81: the object handed to [setTideData]. *)
Definition buildTideData (tides : list Tide) (now : Z) : TideData :=
  {| location := LOCATION_name;
     coordinates := {| lat := LOCATION_lat; lon := LOCATION_lon |};
     tides := tides;
     nextTide := findNextTide now tides;
     currentTide := getCurrentTideDirection tides now |}.

(** What the upstream service does with the request of lines 41-51:
    [fetch] rejects or resolves to a response, whose [json()] rejects or
    resolves to a body.  A body is an error object, an object with a
    [predictions] array, or anything else, on which reading
    [data.error] or [data.predictions.map] throws a [TypeError]. *)
Inductive Thrown : Type :=
| ErrorObject (message : string)
| NonError.

Inductive JsonBody : Type :=
| ErrorPayload (message : string)
| PredictionsBody (predictions : list Prediction)
| MalformedBody (typeErrorMessage : string).

Record Response : Type := mkResponse {
  ok : bool;
  status : Z;
  json : Thrown + JsonBody
}.

Definition Upstream : Type := (Thrown + Response)%type.

(** The component state of lines 23-25 and the calls of its setters. *)
Record Component : Type := mkComponent {
  tideData : option TideData;
  loading : bool;
  error : option string
}.

Inductive Update : Type :=
| SetTideData (d : TideData)
| SetLoading (b : bool)
| SetError (e : option string).

Definition applyUpdate (c : Component) (u : Update) : Component :=
  match u with
  | SetTideData d => {| tideData := Some d; loading := loading c; error := error c |}
  | SetLoading b => {| tideData := tideData c; loading := b; error := error c |}
  | SetError e => {| tideData := tideData c; loading := loading c; error := e |}
  end.

Definition applyUpdates (c : Component) (us : list Update) : Component :=
  fold_left applyUpdate us c.

(** Computations that call setters and may throw: the result (or the
    thrown value) with the setter calls made, in order. *)
Definition Eff (A : Type) : Type := ((Thrown + A) * list Update)%type.

Definition ret {A : Type} (a : A) : Eff A := (inr a, []).
Definition throw {A : Type} (e : Thrown) : Eff A := (inl e, []).
Definition call (u : Update) : Eff unit := (inr tt, [u]).

Definition bind {A B : Type} (m : Eff A) (f : A -> Eff B) : Eff B :=
  match m with
  | (inl e, us) => (inl e, us)
  | (inr a, us) => let (r, us') := f a in (r, us ++ us')
  end.

(** [await p]: the value of a settled promise. *)
Definition await {A : Type} (p : Thrown + A) : Eff A :=
  match p with
  | inl e => throw e
  | inr a => ret a
  end.

(** [try { body } catch (err) { handler err } finally { finalizer }]. *)
Definition tryCatchFinally (body : Eff unit) (handler : Thrown -> Eff unit)
    (finalizer : Eff unit) : Eff unit :=
  let caught :=
    match body with
    | (inl err, us) => let (r, us') := handler err in (r, us ++ us')
    | (inr tt, us) => (inr tt, us)
    end in
  let (r, us) := caught in
  let (r', us') := finalizer in
  (match r' with inl e => inl e | inr _ => r end, us ++ us').

Notation "x <- m ;; k" := (bind m (fun x => k))
  (at level 61, m at next level, right associativity).
Notation "m ;; k" := (bind m (fun _ => k))
  (at level 61, right associativity).

Definition setTideData (d : TideData) : Eff unit := call (SetTideData d).
Definition setLoading (b : bool) : Eff unit := call (SetLoading b).
Definition setError (e : option string) : Eff unit := call (SetError e).

(** The decimal rendering of [response.status] in the template string of
    line 54. *)
Definition statusToString (status : Z) : string :=
  NilZero.string_of_int (Z.to_int status).

(** Lines 36-92.  [upstream] is the outcome of the request and [now] the
    value of [Date.now()] at line 72. *)
Definition fetchNOAATideData (upstream : Upstream) (now : Z) : Eff unit :=
  setLoading true ;;
  setError None ;;
  tryCatchFinally
    (response <- await upstream ;;
     (if negb (ok response)
      then throw (ErrorObject (String.append "NOAA API error: " (statusToString (status response))))
      else ret tt) ;;
     data <- await (json response) ;;
     match data with
     | ErrorPayload message => throw (ErrorObject message)
     | MalformedBody message => throw (ErrorObject message)
     | PredictionsBody predictions =>
         let tides := map normalize predictions in
         setTideData (buildTideData tides now)
     end)
    (fun err =>
       match err with
       | ErrorObject message =>
           setError (Some (String.append "Failed to fetch tide data: " message))
       | NonError => setError (Some "Failed to fetch tide data: Unknown error")
       end)
    (setLoading false).

(** The component state once the setter calls of a fetch are applied. *)
Definition afterFetch (upstream : Upstream) (now : Z) (c : Component) : Component :=
  applyUpdates c (snd (fetchNOAATideData upstream now)).

(** *** The calculator with the clock it reads

    [calculateThunderHoleTime] takes the instant from the clock itself:
    [new Date()] at line 108 and again at line 121, once per tide, where
    the value is overwritten before any use.  [clock k] is what the
    [k]-th evaluation of [new Date()] yields; a world counts the
    evaluations made so far and holds the state of the component. *)
Record World : Type := mkWorld {
  clockReads : nat;
  component : Component
}.

Definition readClock (clock : nat -> Z) (w : World) : Z * World :=
  (clock (clockReads w),
   {| clockReads := S (clockReads w); component := component w |}).

(** Lines 117-140 with the clock read of line 121. *)
Fixpoint scanTidesAt (clock : nat -> Z) (now sunrise sunset : Z) (tides : list Tide)
    (w : World) : option ThunderHoleTime * World :=
  match tides with
  | [] => (None, w)
  | tide :: rest =>
      let (_, w') := readClock clock w in
      let thunderHoleTime := candidateTime tide in
      if inDaylightAndFuture now sunrise sunset thunderHoleTime then
        match thunderHoleTime with
        | Valid c =>
            (Some {| th_time := toLocaleTimeString thunderHoleTime;
                     th_date := toLocaleDateString thunderHoleTime;
                     relatedTide := tide;
                     th_timestamp := c;
                     hoursFromNow := Qmake (c - now) (1000 * 60 * 60)%positive |},
             w')
        | Invalid => scanTidesAt clock now sunrise sunset rest w'
        end
      else scanTidesAt clock now sunrise sunset rest w'
  end.

(** Lines 107-143 as written, the instant read at line 108. *)
Definition calculateThunderHoleTimeAt (clock : nat -> Z) (tides : list Tide) (w : World)
  : option ThunderHoleTime * World :=
  let (now, w') := readClock clock w in
  let sunrise := setHours now 6 0 in
  let sunset := setHours now 19 30 in
  scanTidesAt clock now sunrise sunset tides w'.

End Tracker.

(** ** A concrete clock and parser, for examples

    The upstream service writes [t] as ["YYYY-MM-DD HH:MM"], which
    [new Date] reads as local time. *)

(** The instant at [h]:[m] local time on day number [day] (days since the
    epoch, in local time). *)
Definition localTime (localOffset day h m : Z) : Z :=
  day * msPerDay + h * msPerHour + m * msPerMinute - localOffset.

Definition digitValue (c : ascii) : option Z :=
  let n := Z.of_nat (nat_of_ascii c) in
  if (48 <=? n) && (n <=? 57) then Some (n - 48) else None.

Definition twoDigits (a b : ascii) : option Z :=
  match digitValue a, digitValue b with
  | Some x, Some y => Some (10 * x + y)
  | _, _ => None
  end.

Definition fourDigits (a b c d : ascii) : option Z :=
  match twoDigits a b, twoDigits c d with
  | Some x, Some y => Some (100 * x + y)
  | _, _ => None
  end.

(** Days from the epoch to the civil date [y]-[m]-[d] (proleptic
    Gregorian calendar). *)
Definition daysFromCivil (y m d : Z) : Z :=
  let y' := if m <=? 2 then y - 1 else y in
  let era := y' / 400 in
  let yoe := y' - era * 400 in
  let mp := if m <=? 2 then m + 9 else m - 3 in
  let doy := (153 * mp + 2) / 5 + d - 1 in
  let doe := yoe * 365 + yoe / 4 - yoe / 100 + doy in
  era * 146097 + doe - 719468.

Definition noaaDateParse (localOffset : Z) (s : string) : TimeValue :=
  match s with
  | String y1 (String y2 (String y3 (String y4 (String "-"
    (String m1 (String m2 (String "-"
    (String d1 (String d2 (String " "
    (String h1 (String h2 (String ":"
    (String n1 (String n2 EmptyString))))))))))))))) =>
      match fourDigits y1 y2 y3 y4, twoDigits m1 m2, twoDigits d1 d2,
            twoDigits h1 h2, twoDigits n1 n2 with
      | Some y, Some m, Some d, Some h, Some n =>
          if (1 <=? m) && (m <=? 12) && (1 <=? d) && (d <=? 31)
             && (h <=? 23) && (n <=? 59)
          then Valid (localTime localOffset (daysFromCivil y m d) h n)
          else Invalid
      | _, _, _, _, _ => Invalid
      end
  | _ => Invalid
  end.

(** The civil date [(y, m, d)] of a day number. *)
Definition civilFromDays (days : Z) : Z * Z * Z :=
  let z := days + 719468 in
  let era := z / 146097 in
  let doe := z - era * 146097 in
  let yoe := (doe - doe / 1460 + doe / 36524 - doe / 146096) / 365 in
  let doy := doe - (365 * yoe + yoe / 4 - yoe / 100) in
  let mp := (5 * doy + 2) / 153 in
  let d := doy - (153 * mp + 2) / 5 + 1 in
  let m := if mp <? 10 then mp + 3 else mp - 9 in
  let y := yoe + era * 400 in
  (if m <=? 2 then y + 1 else y, m, d).

Definition decimal (n : Z) : string := NilZero.string_of_int (Z.to_int n).

Definition decimal2 (n : Z) : string :=
  if n <? 10 then String.append "0" (decimal n) else decimal n.

(** The en-US renderings: ["08:00 AM"] for
    [toLocaleTimeString([], { hour: '2-digit', minute: '2-digit' })] and
    ["6/1/2025"] for [toLocaleDateString()]. *)
Definition enUSTimeString (localOffset : Z) (t : TimeValue) : string :=
  match t with
  | Invalid => "Invalid Date"
  | Valid ms =>
      let inDay := (ms + localOffset) mod msPerDay in
      let h := inDay / msPerHour in
      let m := (inDay mod msPerHour) / msPerMinute in
      let h12 := if h mod 12 =? 0 then 12 else h mod 12 in
      String.append (decimal2 h12)
        (String.append ":"
           (String.append (decimal2 m) (if h <? 12 then " AM" else " PM")))
  end.

Definition enUSDateString (localOffset : Z) (t : TimeValue) : string :=
  match t with
  | Invalid => "Invalid Date"
  | Valid ms =>
      let '(y, m, d) := civilFromDays ((ms + localOffset) / msPerDay) in
      String.append (decimal m)
        (String.append "/" (String.append (decimal d) (String.append "/" (decimal y))))
  end.

(** [parseFloat(v).toFixed(1)] on a height already written with one
    decimal, as in the examples below. *)
Definition oneDecimalHeight (v : string) : string := v.

(** US Eastern daylight time, the zone of the station in summer. *)
Definition EDT : Z := - 4 * msPerHour.

Definition exNormalize : Prediction -> Tide :=
  normalize (enUSTimeString EDT) (enUSDateString EDT) (noaaDateParse EDT) oneDecimalHeight.

Definition exCalculate : Z -> list Tide -> option ThunderHoleTime :=
  calculateThunderHoleTime EDT (enUSTimeString EDT) (enUSDateString EDT).

Definition exFetch : Upstream -> Z -> Eff unit :=
  fetchNOAATideData (enUSTimeString EDT) (enUSDateString EDT) (noaaDateParse EDT) oneDecimalHeight.

(** ** Vocabulary of the specification *)

(** [a <= b] between two time values. *)
Definition tv_le (a b : TimeValue) : bool :=
  match a, b with
  | Valid x, Valid y => x <=? y
  | _, _ => false
  end.

(** Ordered ascending: each element is at most the one after it. *)
Fixpoint ascending (l : list TimeValue) : bool :=
  match l with
  | a :: ((b :: _) as rest) => tv_le a b && ascending rest
  | _ => true
  end.

Definition chronological (tides : list Tide) : Prop :=
  ascending (map timestamp tides) = true.

Definition countFuture (now : Z) (tides : list Tide) : nat :=
  List.length (filter (isFuture now) tides).

(** The nearest future event: among the events strictly after [now], the
    one with the least timestamp (the first of them in the sequence when
    several share it). *)
Fixpoint nearestFuture (now : Z) (tides : list Tide) : option Tide :=
  match tides with
  | [] => None
  | tide :: rest =>
      match nearestFuture now rest with
      | Some best =>
          if isFuture now tide && tv_le (timestamp tide) (timestamp best)
          then Some tide else Some best
      | None => if isFuture now tide then Some tide else None
      end
  end.

(** The test of line 131 with the window the calculator builds, on the
    calendar day of [now]. *)
Definition qualifiesToday (localOffset now : Z) (tide : Tide) : bool :=
  inDaylightAndFuture now (setHours localOffset now 6 0)
    (setHours localOffset now 19 30) (candidateTime tide).

(** The daylight window of section 4.2: 06:00 to 19:30 on the calendar
    date of the instant itself. *)
Definition withinDaylightOwnDate (localOffset : Z) (t : TimeValue) : bool :=
  match t with
  | Valid c => (setHours localOffset c 6 0 <=? c) && (c <=? setHours localOffset c 19 30)
  | Invalid => false
  end.

(** Section 4.2, condition (a) and (b) on the candidate of an event. *)
Definition qualifiesOwnDate (localOffset now : Z) (tide : Tide) : bool :=
  tv_gtb (candidateTime tide) now && withinDaylightOwnDate localOffset (candidateTime tide).

(** Section 4.2 as written: the first event of the sequence whose
    candidate qualifies, with that candidate. *)
Definition optimalTimeOwnDate (localOffset now : Z) (tides : list Tide)
  : option (Tide * TimeValue) :=
  match find (qualifiesOwnDate localOffset now) tides with
  | Some tide => Some (tide, candidateTime tide)
  | None => None
  end.

(** The failures of a fetch: the request rejects, the status is not a
    success, the body does not parse, or the body is an error object or
    has no predictions. *)
Definition upstreamFails (upstream : Upstream) : bool :=
  match upstream with
  | inl _ => true
  | inr response =>
      if negb (ok response) then true
      else match json response with
           | inl _ => true
           | inr (ErrorPayload _) => true
           | inr (MalformedBody _) => true
           | inr (PredictionsBody _) => false
           end
  end.

Definition isSetTideData (u : Update) : bool :=
  match u with
  | SetTideData _ => true
  | _ => false
  end.

(** ** Example inputs: 1 June 2025 (day 20240) at the station *)

Definition june1 : Z := 20240.

Definition exLow0800 : Tide := exNormalize (mkPrediction "2025-06-01 08:00" "0.3" "L").
Definition exHigh1400 : Tide := exNormalize (mkPrediction "2025-06-01 14:00" "9.8" "H").
Definition exHigh0600 : Tide := exNormalize (mkPrediction "2025-06-01 06:00" "9.8" "H").
Definition exLow1200 : Tide := exNormalize (mkPrediction "2025-06-01 12:00" "0.3" "L").
Definition exHigh1800 : Tide := exNormalize (mkPrediction "2025-06-01 18:00" "9.9" "H").
Definition exLow0800Tomorrow : Tide := exNormalize (mkPrediction "2025-06-02 08:00" "0.2" "L").

Definition exNineAM : Z := localTime EDT june1 9 0.

(** At 09:00: one event before, one after. *)
Definition exOnePastOneFuture : list Tide := [exHigh0600; exLow1200].

(** At 09:00: one event before, two after. *)
Definition exOnePastTwoFuture : list Tide := [exHigh0600; exLow1200; exHigh1800].

(** At 09:00: nothing before. *)
Definition exNoPast : list Tide := [exLow1200; exHigh1800].

Definition exSevenAM : Z := localTime EDT june1 7 0.
Definition exEightPM : Z := localTime EDT june1 20 0.

(** The tides of 1 June and the first low of 2 June. *)
Definition exTwoDays : list Tide :=
  [exHigh0600; exLow1200; exHigh1800; exLow0800Tomorrow].

(** Two records the wrong way round. *)
Definition exUnorderedPredictions : list Prediction :=
  [ mkPrediction "2025-06-02 08:00" "0.2" "L";
    mkPrediction "2025-06-01 14:00" "9.8" "H" ].

Definition exDataset : TideData :=
  buildTideData [exLow0800; exHigh1400] (localTime EDT june1 7 0).

Definition exComponent : Component :=
  {| tideData := Some exDataset; loading := false; error := None |}.

Definition exServiceUnavailable : Upstream :=
  inr (mkResponse false 503 (inl NonError)).

(** ** The request (lines 41-49)

    [toISOString] renders the UTC calendar date; the model covers the
    years 0000 to 9999, which it writes with four digits.
    [setDate(getDate() + 2)] keeps the local time of day and moves the
    local calendar date forward by two: with [offsetToday] the local
    offset in force at [today] and [offsetThen] the one in force at the
    result (milliseconds east of UTC), that is 48 hours later when the
    two are equal, 49 across a change from daylight-saving to standard
    time and 47 across the opposite change. *)

Definition digitChar (n : Z) : ascii := ascii_of_nat (48 + Z.to_nat (n mod 10)).

Definition pad2 (n : Z) : string :=
  String (digitChar (n / 10)) (String (digitChar n) EmptyString).

Definition pad4 (n : Z) : string :=
  String (digitChar (n / 1000)) (String (digitChar (n / 100)) (pad2 n)).

(** [d.toISOString().split('T')[0]]. *)
Definition isoDate (d : Z) : string :=
  let '(y, m, day) := civilFromDays (d / msPerDay) in
  String.append (pad4 y) (String "-" (String.append (pad2 m) (String "-" (pad2 day)))).

(** [s.replace(/-/g, '')]. *)
Fixpoint removeDashes (s : string) : string :=
  match s with
  | EmptyString => EmptyString
  | String c rest =>
      if Ascii.eqb c "-" then removeDashes rest else String c (removeDashes rest)
  end.

Definition beginDate (today : Z) : string := removeDashes (isoDate today).

Definition setDatePlus2 (offsetToday offsetThen today : Z) : Z :=
  today + offsetToday + 2 * msPerDay - offsetThen.

Definition endDate (offsetToday offsetThen today : Z) : string :=
  let tomorrow := setDatePlus2 offsetToday offsetThen today in
  removeDashes (isoDate tomorrow).

Definition LOCATION_noaaStation : string := "8413825".

Definition requestUrl (offsetToday offsetThen today : Z) : string :=
  String.concat ""
    [ "https://api.tidesandcurrents.noaa.gov/api/prod/datagetter?product=predictions&application=NOS.COOPS.TAC.WL&begin_date=";
      beginDate today; "&end_date="; endDate offsetToday offsetThen today;
      "&datum=MLLW&station=";
      LOCATION_noaaStation; "&time_zone=lst_ldt&units=english&interval=hilo&format=json" ].

(** Reading a [YYYYMMDD] query parameter back, as its receiver does. *)
Definition parseCompactDate (s : string) : option (Z * Z * Z) :=
  match s with
  | String y1 (String y2 (String y3 (String y4
    (String m1 (String m2 (String d1 (String d2 EmptyString))))))) =>
      match fourDigits y1 y2 y3 y4, twoDigits m1 m2, twoDigits d1 d2 with
      | Some y, Some m, Some d => Some (y, m, d)
      | _, _, _ => None
      end
  | _ => None
  end.

(** ** What the component shows (lines 23-25, 210, 218, 234, 290-293) *)

Definition initialComponent : Component :=
  {| tideData := None; loading := true; error := None |}.

(** Truthiness of a string: the empty string is falsy. *)
Definition truthy (s : string) : bool := negb (String.eqb s "").

(** Line 210: [loading && ...]. *)
Definition loadingPanel (c : Component) : bool := loading c.

(** Line 218: [error && ...], showing the message. *)
Definition errorPanel (c : Component) : option string :=
  match error c with
  | Some message => if truthy message then Some message else None
  | None => None
  end.

(** Line 234: [tideData && !loading && ...]: the dataset handed to the
    markup of lines 235-310 when the condition holds.  Whether that
    markup can be rendered is [renderScreen]. *)
Definition dataPanel (c : Component) : option TideData :=
  match tideData c with
  | Some d => if negb (loading c) then Some d else None
  | None => None
  end.

(** Lines 291-293: the text [{nextTide.type} at {nextTide.time}].  Reading
    a property of [undefined] throws a [TypeError] and the render fails:
    [None]. *)
Definition nextTideLine (d : TideData) : option string :=
  match nextTide d with
  | Some tide => Some (String.append (type tide) (String.append " at " (time tide)))
  | None => None
  end.

(** What a render that completes puts on the page. *)
Record Screen : Type := mkScreen {
  shownLoading : bool;
  shownError : option string;
  shownData : option (TideData * string)
}.

(** Lines 176-321.  The markup of the dataset reads [nextTide.type]; when
    that throws, the render throws, nothing catches it and the page is
    left empty: [None]. *)
Definition renderScreen (c : Component) : option Screen :=
  match dataPanel c with
  | Some d =>
      match nextTideLine d with
      | Some line =>
          Some {| shownLoading := loadingPanel c;
                  shownError := errorPanel c;
                  shownData := Some (d, line) |}
      | None => None
      end
  | None =>
      Some {| shownLoading := loadingPanel c;
              shownError := errorPanel c;
              shownData := None |}
  end.

Definition validTimestamp (tide : Tide) : bool :=
  match timestamp tide with
  | Valid _ => true
  | Invalid => false
  end.

(** ** Refreshing (lines 145-150 and the Retry button, line 225)

    The component fetches on mount, on every tick of the timer and on
    Retry; a fetch is taken to complete before the next one starts. *)

Section Refresh.

Variable toLocaleTimeString toLocaleDateString : TimeValue -> string.
Variable dateParse : string -> TimeValue.
Variable heightToFixed1 : string -> string.

(** The state after a sequence of fetches, each with the outcome of its
    request and the instant of its line 72. *)
Definition runFetches (c : Component) (fetches : list (Upstream * Z)) : Component :=
  fold_left
    (fun state f =>
       afterFetch toLocaleTimeString toLocaleDateString dateParse heightToFixed1
         (fst f) (snd f) state)
    fetches c.

End Refresh.

Definition exRunFetches : Component -> list (Upstream * Z) -> Component :=
  runFetches (enUSTimeString EDT) (enUSDateString EDT) (noaaDateParse EDT) oneDecimalHeight.

Definition exAfterFetch : Upstream -> Z -> Component -> Component :=
  afterFetch (enUSTimeString EDT) (enUSDateString EDT) (noaaDateParse EDT) oneDecimalHeight.

Definition exPredictions : list Prediction :=
  [ mkPrediction "2025-06-01 06:00" "9.8" "H";
    mkPrediction "2025-06-01 12:00" "0.3" "L";
    mkPrediction "2025-06-01 18:00" "9.9" "H";
    mkPrediction "2025-06-02 00:15" "0.4" "L" ].

Definition exOk : Upstream :=
  inr (mkResponse true 200 (inr (PredictionsBody exPredictions))).

Definition exOkEmpty : Upstream :=
  inr (mkResponse true 200 (inr (PredictionsBody []))).

Definition exUnparsed : Tide := exNormalize (mkPrediction "soon" "1.0" "H").


(** The tides of 1 June, latest first. *)
Definition exLatestFirst : list Tide := [exHigh1800; exLow1200; exHigh0600].

(** A clock that shows 07:00 at every reading but its second. *)
Definition exClock (k : nat) : Z :=
  if Nat.eqb k 1 then exSevenAM + 1 else exSevenAM.

Definition exWorld : World := {| clockReads := 0; component := exComponent |}.

Definition exCalculateAt : (nat -> Z) -> list Tide -> World -> option ThunderHoleTime * World :=
  calculateThunderHoleTimeAt EDT (enUSTimeString EDT) (enUSDateString EDT).

(** US Eastern standard time, and 19:30 on 1 November 2025 (day 20393),
    the eve of the change from daylight-saving to standard time. *)
Definition EST : Z := - 5 * msPerHour.

Definition exNov1Evening : Z := localTime EDT 20393 19 30.

(** * Properties *)

(** ** Lists *)

Lemma filter_none {A : Type} (f : A -> bool) (l : list A) :
  (forall x, In x l -> f x = false) -> filter f l = [].
Proof.
  induction l as [| a l IH]; intros H; simpl.
  - reflexivity.
  - rewrite (H a (or_introl eq_refl)). apply IH.
    intros x Hx. apply H. now right.
Qed.

Lemma find_is_head_of_filter {A : Type} (f : A -> bool) (l : list A) :
  find f l = hd_error (filter f l).
Proof.
  induction l as [| a l IH]; simpl.
  - reflexivity.
  - destruct (f a); [reflexivity | exact IH].
Qed.

Lemma find_first {A : Type} (f : A -> bool) (l : list A) (x : A) :
  find f l = Some x ->
  exists pre post,
    l = pre ++ x :: post /\ f x = true /\ forall y, In y pre -> f y = false.
Proof.
  induction l as [| a l IH]; simpl; intros H.
  - discriminate.
  - destruct (f a) eqn:Hfa.
    + inversion H; subst a. exists [], l. simpl. repeat split; tauto.
    + destruct (IH H) as (pre & post & -> & Hx & Hpre).
      exists (a :: pre), post. simpl. repeat split; trivial.
      intros y [<- | Hy]; auto.
Qed.

Lemma lastElement_none {A : Type} (l : list A) :
  lastElement l = None -> l = [].
Proof.
  induction l as [| a l IH]; simpl; intros H.
  - reflexivity.
  - destruct l as [| b l]; [discriminate |].
    specialize (IH H). discriminate.
Qed.

(** ** Time values and ascending sequences *)

Lemma tv_le_trans (a b c : TimeValue) :
  tv_le a b = true -> tv_le b c = true -> tv_le a c = true.
Proof.
  destruct a, b, c; simpl; try discriminate.
  rewrite !Z.leb_le. lia.
Qed.

Lemma ascending_tail (a : TimeValue) (l : list TimeValue) :
  ascending (a :: l) = true -> ascending l = true.
Proof.
  destruct l as [| b l]; simpl.
  - reflexivity.
  - intros H. apply andb_prop in H. tauto.
Qed.

Lemma ascending_head_least (a : TimeValue) (l : list TimeValue) :
  ascending (a :: l) = true -> forall b, In b l -> tv_le a b = true.
Proof.
  revert a. induction l as [| c l IH]; intros a H b Hb.
  - destruct Hb.
  - simpl in H. apply andb_prop in H. destruct H as [Hac Hcl].
    destruct Hb as [<- | Hb]; [exact Hac |].
    apply (tv_le_trans a c b Hac). apply IH; assumption.
Qed.

Lemma chronological_tail (tide : Tide) (tides : list Tide) :
  chronological (tide :: tides) -> chronological tides.
Proof. unfold chronological. simpl. apply ascending_tail. Qed.

Lemma chronological_head_least (tide : Tide) (tides : list Tide) :
  chronological (tide :: tides) ->
  forall e, In e tides -> tv_le (timestamp tide) (timestamp e) = true.
Proof.
  unfold chronological. simpl. intros H e He.
  apply (ascending_head_least _ _ H). now apply in_map.
Qed.

(** ** The nearest future event *)

Lemma nearestFuture_none (now : Z) (tides : list Tide) :
  nearestFuture now tides = None ->
  forall e, In e tides -> isFuture now e = false.
Proof.
  induction tides as [| a tides IH]; simpl; intros H e He.
  - destruct He.
  - destruct (nearestFuture now tides) as [best |].
    + destruct (isFuture now a && tv_le (timestamp a) (timestamp best)); discriminate.
    + destruct (isFuture now a) eqn:Hfa; [discriminate |].
      destruct He as [Heq | He]; [subst e; exact Hfa | now apply IH].
Qed.

Lemma future_le_refl (now : Z) (e : Tide) :
  isFuture now e = true -> tv_le (timestamp e) (timestamp e) = true.
Proof.
  unfold isFuture. destruct (timestamp e); simpl; [intros _; apply Z.leb_refl | discriminate].
Qed.

Lemma future_le_total (now : Z) (a b : Tide) :
  isFuture now a = true -> isFuture now b = true ->
  tv_le (timestamp a) (timestamp b) = false ->
  tv_le (timestamp b) (timestamp a) = true.
Proof.
  unfold isFuture. destruct (timestamp a), (timestamp b); simpl; try discriminate.
  intros _ _. rewrite Z.leb_gt, Z.leb_le. lia.
Qed.

(** [nearestFuture] is what its name says on any sequence: a member,
    strictly after [now], and no later than any other future event. *)
Lemma nearestFuture_least (now : Z) (tides : list Tide) (next : Tide) :
  nearestFuture now tides = Some next ->
  In next tides /\ isFuture now next = true /\
  forall e, In e tides -> isFuture now e = true ->
            tv_le (timestamp next) (timestamp e) = true.
Proof.
  revert next. induction tides as [| a tides IH]; simpl; intros next H.
  - discriminate.
  - destruct (nearestFuture now tides) as [best |] eqn:Hbest.
    + destruct (IH best eq_refl) as (Hin & Hfut & Hmin).
      destruct (isFuture now a) eqn:Hfa; simpl in H.
      * destruct (tv_le (timestamp a) (timestamp best)) eqn:Hle;
          inversion H; subst next.
        -- repeat split; auto.
           intros e [Heq | He] Hfe.
           ++ subst e. now apply (future_le_refl now).
           ++ apply (tv_le_trans _ _ _ Hle). auto.
        -- repeat split; auto.
           intros e [Heq | He] Hfe; [subst e | auto].
           now apply (future_le_total now).
      * inversion H; subst next. repeat split; auto.
        intros e [Heq | He] Hfe; [subst e; congruence | auto].
    + destruct (isFuture now a) eqn:Hfa; inversion H; subst next.
      repeat split; auto.
      intros e [Heq | He] Hfe.
      * subst e. now apply (future_le_refl now).
      * rewrite (nearestFuture_none now tides Hbest e He) in Hfe. discriminate.
Qed.

(** On a chronological sequence the nearest future event is the first
    element of [futureTides]. *)
Lemma nearestFuture_chronological (now : Z) (tides : list Tide) :
  chronological tides ->
  nearestFuture now tides = hd_error (filter (isFuture now) tides).
Proof.
  induction tides as [| a tides IH]; intros Hchr; simpl.
  - reflexivity.
  - rewrite (IH (chronological_tail _ _ Hchr)).
    destruct (isFuture now a) eqn:Hfa; simpl.
    + destruct (hd_error (filter (isFuture now) tides)) as [best |] eqn:Hhd;
        [| reflexivity].
      assert (Hin : In best tides).
      { destruct (filter (isFuture now) tides) as [| x l] eqn:Hf; [discriminate |].
        simpl in Hhd. inversion Hhd; subst x.
        assert (Hb : In best (filter (isFuture now) tides)) by (rewrite Hf; now left).
        apply filter_In in Hb. tauto. }
      now rewrite (chronological_head_least _ _ Hchr best Hin).
    + destruct (hd_error (filter (isFuture now) tides)); reflexivity.
Qed.

(** With exactly one future event the guard of line 96 answers
    ["Unknown"], whatever lies in the past. *)
Lemma direction_unknown_with_one_future (tides : list Tide) (now : Z) :
  countFuture now tides = 1%nat -> getCurrentTideDirection tides now = "Unknown".
Proof.
  unfold countFuture, getCurrentTideDirection. intros ->. reflexivity.
Qed.

(** ** Tide direction *)

Lemma past_event_gives_prevTide (tides : list Tide) (now : Z) :
  (exists e, In e tides /\ isPast now e = true) ->
  exists prevTide, lastElement (filter (isPast now) tides) = Some prevTide.
Proof.
  intros (e & He & Hp).
  destruct (lastElement (filter (isPast now) tides)) as [p |] eqn:Hlast.
  - now exists p.
  - apply lastElement_none in Hlast.
    assert (Hin : In e (filter (isPast now) tides)) by (apply filter_In; tauto).
    rewrite Hlast in Hin. destruct Hin.
Qed.

(** C1 (amended): on a chronologically ordered sequence with at least one
    event strictly before [now] and at least two events strictly after
    [now], the classifier is never ["Unknown"]: it answers ["Rising"] when
    the nearest future event is a High and ["Falling"] when it is a Low. *)
Theorem direction_follows_nearest_future (tides : list Tide) (now : Z) :
  chronological tides ->
  (exists e, In e tides /\ isPast now e = true) ->
  (2 <= countFuture now tides)%nat ->
  exists next,
    nearestFuture now tides = Some next /\
    getCurrentTideDirection tides now <> "Unknown" /\
    (type next = "High" -> getCurrentTideDirection tides now = "Rising") /\
    (type next = "Low" -> getCurrentTideDirection tides now = "Falling").
Proof.
  intros Hchr Hpast Hcount.
  rewrite (nearestFuture_chronological now tides Hchr).
  unfold getCurrentTideDirection, countFuture in *.
  destruct (past_event_gives_prevTide tides now Hpast) as (prev & ->).
  destruct (filter (isFuture now) tides) as [| next [| second more]];
    simpl in Hcount; try lia.
  exists next. simpl. split; [reflexivity |].
  destruct (String.eqb (type next) "High") eqn:Hhigh.
  - apply String.eqb_eq in Hhigh.
    repeat split; try discriminate; try reflexivity.
    intros Hlow. rewrite Hlow in Hhigh. discriminate.
  - repeat split; try discriminate; try reflexivity.
    intros Heq. rewrite Heq in Hhigh. discriminate.
Qed.

Lemma direction_follows_nearest_future_witness :
  exists next,
    nearestFuture exNineAM exOnePastTwoFuture = Some next /\
    getCurrentTideDirection exOnePastTwoFuture exNineAM <> "Unknown" /\
    (type next = "High" -> getCurrentTideDirection exOnePastTwoFuture exNineAM = "Rising") /\
    (type next = "Low" -> getCurrentTideDirection exOnePastTwoFuture exNineAM = "Falling").
Proof.
  apply (direction_follows_nearest_future exOnePastTwoFuture exNineAM).
  - reflexivity.
  - exists exHigh0600. split; [simpl; tauto | reflexivity].
  - vm_compute. lia.
Defined.

(** C1 as stated fails: at 09:00, with a High at 06:00 behind and a Low at
    12:00 ahead, the sequence is chronological and has one past and one
    future event, the nearest future event is the Low, and the classifier
    answers ["Unknown"], not ["Falling"]. *)
Lemma direction_unknown_with_one_past_one_future :
  chronological exOnePastOneFuture /\
  (In exHigh0600 exOnePastOneFuture /\ isPast exNineAM exHigh0600 = true) /\
  (In exLow1200 exOnePastOneFuture /\ isFuture exNineAM exLow1200 = true) /\
  nearestFuture exNineAM exOnePastOneFuture = Some exLow1200 /\
  type exLow1200 = "Low" /\
  getCurrentTideDirection exOnePastOneFuture exNineAM = "Unknown" /\
  getCurrentTideDirection exOnePastOneFuture exNineAM <> "Falling".
Proof.
  repeat split; try reflexivity; try (simpl; tauto).
  vm_compute. discriminate.
Qed.

(** C5: when the sequence has no event strictly before [now], or no event
    strictly after [now], the classifier answers ["Unknown"]. *)
Theorem direction_unknown_without_past_or_future (tides : list Tide) (now : Z) :
  (forall e, In e tides -> isPast now e = false) \/
  (forall e, In e tides -> isFuture now e = false) ->
  getCurrentTideDirection tides now = "Unknown".
Proof.
  unfold getCurrentTideDirection. intros [Hnopast | Hnofuture].
  - rewrite (filter_none (isPast now) tides Hnopast). simpl.
    destruct (List.length (filter (isFuture now) tides) <? 2)%nat; [reflexivity |].
    destruct (filter (isFuture now) tides); reflexivity.
  - rewrite (filter_none (isFuture now) tides Hnofuture). reflexivity.
Qed.

Lemma direction_unknown_without_past_or_future_witness :
  getCurrentTideDirection exNoPast exNineAM = "Unknown".
Proof.
  apply (direction_unknown_without_past_or_future exNoPast exNineAM).
  left. intros e He. simpl in He.
  destruct He as [<- | [<- | []]]; reflexivity.
Defined.

(** ** The calculator's scan *)

Section CalculatorFacts.

Variable localOffset : Z.
Variable toLocaleTimeString toLocaleDateString : TimeValue -> string.

Local Abbreviation scan := (scanTides toLocaleTimeString toLocaleDateString).

Lemma test_true_valid (now sunrise sunset : Z) (t : TimeValue) :
  inDaylightAndFuture now sunrise sunset t = true ->
  exists c, t = Valid c /\ now < c /\ sunrise <= c <= sunset.
Proof.
  unfold inDaylightAndFuture. destruct t as [c |]; simpl; [| discriminate].
  rewrite !andb_true_iff, Z.ltb_lt, !Z.leb_le. intros [[? ?] ?].
  exists c. repeat split; assumption.
Qed.

Lemma scan_skip (now sunrise sunset : Z) (tide : Tide) (rest : list Tide) :
  inDaylightAndFuture now sunrise sunset (candidateTime tide) = false ->
  scan now sunrise sunset (tide :: rest) = scan now sunrise sunset rest.
Proof. simpl. intros ->. reflexivity. Qed.

Lemma scan_accept (now sunrise sunset : Z) (tide : Tide) (rest : list Tide) :
  inDaylightAndFuture now sunrise sunset (candidateTime tide) = true ->
  exists c,
    candidateTime tide = Valid c /\
    scan now sunrise sunset (tide :: rest) =
    Some {| th_time := toLocaleTimeString (Valid c);
            th_date := toLocaleDateString (Valid c);
            relatedTide := tide;
            th_timestamp := c;
            hoursFromNow := Qmake (c - now) 3600000 |}.
Proof.
  intros Htest. destruct (test_true_valid _ _ _ _ Htest) as (c & Hc & _).
  exists c. split; [exact Hc |].
  simpl. rewrite Htest, Hc. reflexivity.
Qed.

(** A returned object comes from the first tide of the sequence that
    passes the test. *)
Lemma scan_some (now sunrise sunset : Z) (tides : list Tide) (r : ThunderHoleTime) :
  scan now sunrise sunset tides = Some r ->
  exists pre post,
    tides = pre ++ relatedTide r :: post /\
    (forall e, In e pre ->
               inDaylightAndFuture now sunrise sunset (candidateTime e) = false) /\
    inDaylightAndFuture now sunrise sunset (candidateTime (relatedTide r)) = true /\
    candidateTime (relatedTide r) = Valid (th_timestamp r).
Proof.
  induction tides as [| tide rest IH]; intros H.
  - discriminate.
  - destruct (inDaylightAndFuture now sunrise sunset (candidateTime tide)) eqn:Htest.
    + destruct (scan_accept now sunrise sunset tide rest Htest) as (c & Hc & Heq).
      rewrite Heq in H. inversion H; subst r; simpl.
      exists [], rest. simpl. repeat split; try assumption.
      intros e [].
    + rewrite (scan_skip _ _ _ _ _ Htest) in H.
      destruct (IH H) as (pre & post & -> & Hpre & Hr & Hc).
      exists (tide :: pre), post. simpl. repeat split; try assumption.
      intros e [Heq | He]; [subst e; exact Htest | auto].
Qed.

Lemma scan_none (now sunrise sunset : Z) (tides : list Tide) :
  (forall e, In e tides ->
             inDaylightAndFuture now sunrise sunset (candidateTime e) = false) ->
  scan now sunrise sunset tides = None.
Proof.
  induction tides as [| tide rest IH]; intros H.
  - reflexivity.
  - rewrite scan_skip by (apply H; now left).
    apply IH. intros e He. apply H. now right.
Qed.

(** An instant inside today's window is on today's calendar date. *)
Lemma window_same_day (now c : Z) :
  setHours localOffset now 6 0 <= c <= setHours localOffset now 19 30 ->
  (c + localOffset) / msPerDay = (now + localOffset) / msPerDay.
Proof.
  unfold setHours.
  change msPerDay with 86400000. change msPerHour with 3600000.
  change msPerMinute with 60000. intros H.
  symmetry.
  apply (Z.div_unique _ _ _
           (c + localOffset - (now + localOffset) / 86400000 * 86400000)); lia.
Qed.

(** What passes the calculator's test also meets conditions (a) and (b)
    of section 4.2. *)
Lemma qualifiesToday_qualifiesOwnDate (now : Z) (tide : Tide) :
  qualifiesToday localOffset now tide = true ->
  qualifiesOwnDate localOffset now tide = true.
Proof.
  unfold qualifiesToday, qualifiesOwnDate. intros H.
  destruct (test_true_valid _ _ _ _ H) as (c & Hc & Hnow & Hwin).
  rewrite Hc. simpl.
  pose proof (window_same_day now c Hwin) as Hday.
  unfold setHours in *. rewrite Hday.
  rewrite !andb_true_iff, Z.ltb_lt, !Z.leb_le. lia.
Qed.

End CalculatorFacts.

(** ** The calculator *)

Section CalculatorClaims.

Variable localOffset : Z.
Variable toLocaleTimeString toLocaleDateString : TimeValue -> string.

Local Abbreviation calculate :=
  (calculateThunderHoleTime localOffset toLocaleTimeString toLocaleDateString).
Local Abbreviation calculateAt :=
  (calculateThunderHoleTimeAt localOffset toLocaleTimeString toLocaleDateString).


Lemma newDate_valid (n : TimeValue) (c : Z) :
  newDate n = Valid c -> n = Valid c /\ - maxTime <= c <= maxTime.
Proof.
  destruct n as [x |]; unfold newDate; [| discriminate].
  destruct ((- maxTime <=? x) && (x <=? maxTime)) eqn:Hin; [| discriminate].
  apply andb_true_iff in Hin. rewrite !Z.leb_le in Hin.
  intros H. inversion H; subst c. split; [reflexivity | lia].
Qed.


(** A candidate that is a date comes from a timestamp that is one. *)
Lemma candidateTime_valid (tide : Tide) (c : Z) :
  candidateTime tide = Valid c ->
  exists t,
    timestamp tide = Valid t /\
    c = t + (if String.eqb (type tide) "Low" then 2 * msPerHour else 3 * msPerHour).
Proof.
  unfold candidateTime. cbv zeta. intros H.
  destruct (newDate (timestamp tide)) as [t |] eqn:Hd.
  - apply newDate_valid in Hd. destruct Hd as [Hd _].
    exists t. split; [exact Hd |].
    destruct (String.eqb (type tide) "Low");
      apply newDate_valid in H; destruct H as [H _];
      simpl in H; inversion H; reflexivity.
  - destruct (String.eqb (type tide) "Low"); simpl in H; discriminate.
Qed.


(** The run with the clock returns what the function of the instant
    returns at the reading of line 108, and leaves the component as it
    was. *)
Lemma scanTidesAt_scanTides (clock : nat -> Z) (now sunrise sunset : Z)
    (tides : list Tide) (w : World) :
  fst (scanTidesAt toLocaleTimeString toLocaleDateString clock now sunrise sunset tides w)
  = scanTides toLocaleTimeString toLocaleDateString now sunrise sunset tides /\
  component (snd (scanTidesAt toLocaleTimeString toLocaleDateString clock now sunrise
                    sunset tides w))
  = component w.
Proof.
  revert w. induction tides as [| tide rest IH]; intros w.
  - split; reflexivity.
  - simpl.
    set (w' := {| clockReads := S (clockReads w); component := component w |}).
    destruct (IH w') as [Hres Hcomp].
    destruct (inDaylightAndFuture now sunrise sunset (candidateTime tide)).
    + destruct (candidateTime tide); [split; reflexivity | split; assumption].
    + split; assumption.
Qed.

Lemma calculateAt_calculate (clock : nat -> Z) (tides : list Tide) (w : World) :
  fst (calculateAt clock tides w) = calculate (clock (clockReads w)) tides /\
  component (snd (calculateAt clock tides w)) = component w.
Proof.
  unfold calculateThunderHoleTimeAt, calculateThunderHoleTime. simpl.
  apply (scanTidesAt_scanTides clock _ _ _ tides
           {| clockReads := S (clockReads w); component := component w |}).
Qed.

(** Whatever the calculator returns is the candidate of a tide of the
    sequence, the first one to pass the test with today's window. *)
Lemma calculate_some (now : Z) (tides : list Tide) (r : ThunderHoleTime) :
  calculate now tides = Some r ->
  exists pre post,
    tides = pre ++ relatedTide r :: post /\
    (forall e, In e pre -> qualifiesToday localOffset now e = false) /\
    qualifiesToday localOffset now (relatedTide r) = true /\
    candidateTime (relatedTide r) = Valid (th_timestamp r).
Proof. apply scan_some. Qed.

(** The calculator never returns an instant of another calendar date than
    the one of [now]. *)
Lemma calculate_only_today (now : Z) (tides : list Tide) (r : ThunderHoleTime) :
  calculate now tides = Some r ->
  (th_timestamp r + localOffset) / msPerDay = (now + localOffset) / msPerDay.
Proof.
  intros H. destruct (calculate_some now tides r H) as (_ & _ & _ & _ & Htest & Hc).
  unfold qualifiesToday in Htest. rewrite Hc in Htest.
  destruct (test_true_valid _ _ _ _ Htest) as (c & Heq & _ & Hwin).
  inversion Heq; subst c. now apply window_same_day.
Qed.


(** C7: the calculator always returns.  A tide whose candidate is outside
    the daylight window (of its own date, or of today) is skipped and the
    scan goes on with the rest; when no tide qualifies the result is the
    absent one; and a result that is present is the candidate of a tide of
    the sequence. *)
Theorem calculator_skips_and_reports_absence (now : Z) :
  (forall tide rest,
      withinDaylightOwnDate localOffset (candidateTime tide) = false ->
      calculate now (tide :: rest) = calculate now rest) /\
  (forall tide rest,
      qualifiesToday localOffset now tide = false ->
      calculate now (tide :: rest) = calculate now rest) /\
  (forall tides,
      (forall e, In e tides -> qualifiesToday localOffset now e = false) ->
      calculate now tides = None) /\
  (forall tides,
      (forall e, In e tides -> qualifiesOwnDate localOffset now e = false) ->
      calculate now tides = None) /\
  (forall tides,
      calculate now tides = None \/
      exists r, calculate now tides = Some r /\ In (relatedTide r) tides /\
                candidateTime (relatedTide r) = Valid (th_timestamp r)).
Proof.
  assert (Hown : forall e, qualifiesOwnDate localOffset now e = false ->
                           qualifiesToday localOffset now e = false).
  { intros e He. destruct (qualifiesToday localOffset now e) eqn:Ht; [| reflexivity].
    rewrite (qualifiesToday_qualifiesOwnDate _ _ _ Ht) in He. discriminate. }
  repeat split.
  - intros tide rest Hout. apply scan_skip. apply Hown.
    unfold qualifiesOwnDate. rewrite Hout. apply andb_false_r.
  - intros tide rest Hout. apply scan_skip. exact Hout.
  - intros tides Hnone. apply scan_none. exact Hnone.
  - intros tides Hnone. apply scan_none. intros e He. apply Hown. auto.
  - intros tides. destruct (calculate now tides) as [r |] eqn:Hr; [right | now left].
    exists r. destruct (calculate_some now tides r Hr) as (pre & post & -> & _ & _ & Hc).
    repeat split; trivial. apply in_or_app. right. now left.
Qed.

(** C8: two invocations on the same sequence whose reading of the clock
    at line 108 is the same return the same result, whatever the clock
    shows at its other readings and whatever the state of the component;
    and an invocation leaves the state of the component as it was. *)
Theorem calculator_repeatable
    (clock1 clock2 : nat -> Z) (tides : list Tide) (w1 w2 : World) :
  clock1 (clockReads w1) = clock2 (clockReads w2) ->
  fst (calculateAt clock1 tides w1) = fst (calculateAt clock2 tides w2) /\
  component (snd (calculateAt clock1 tides w1)) = component w1 /\
  component (snd (calculateAt clock2 tides w2)) = component w2.
Proof.
  intros Hnow.
  destruct (calculateAt_calculate clock1 tides w1) as [Hr1 Hc1].
  destruct (calculateAt_calculate clock2 tides w2) as [Hr2 Hc2].
  rewrite Hr1, Hr2, Hnow. repeat split; assumption.
Qed.


End CalculatorClaims.



Lemma calculator_repeatable_witness :
  fst (exCalculateAt exClock [exLow0800; exHigh1400] exWorld)
  = fst (exCalculateAt exClock [exLow0800; exHigh1400]
           (snd (exCalculateAt exClock [exLow0800; exHigh1400] exWorld))) /\
  component (snd (exCalculateAt exClock [exLow0800; exHigh1400] exWorld))
  = component exWorld /\
  component (snd (exCalculateAt exClock [exLow0800; exHigh1400]
                    (snd (exCalculateAt exClock [exLow0800; exHigh1400] exWorld))))
  = component (snd (exCalculateAt exClock [exLow0800; exHigh1400] exWorld)).
Proof.
  apply (calculator_repeatable EDT (enUSTimeString EDT) (enUSDateString EDT)
           exClock exClock [exLow0800; exHigh1400] exWorld
           (snd (exCalculateAt exClock [exLow0800; exHigh1400] exWorld))).
  reflexivity.
Defined.

Lemma calculator_skips_and_reports_absence_witness :
  exCalculate exEightPM (exHigh1800 :: [exLow0800Tomorrow])
  = exCalculate exEightPM [exLow0800Tomorrow] /\
  exCalculate exEightPM [exHigh0600; exLow1200; exHigh1800] = None.
Proof.
  destruct (calculator_skips_and_reports_absence
              EDT (enUSTimeString EDT) (enUSDateString EDT) exEightPM)
    as (Hskip & _ & Hnone & _).
  split.
  - apply (Hskip exHigh1800 [exLow0800Tomorrow]). reflexivity.
  - apply (Hnone [exHigh0600; exLow1200; exHigh1800]).
    intros e He. simpl in He.
    destruct He as [<- | [<- | [<- | []]]]; reflexivity.
Defined.


(** C2 fails on the code.  At 20:00 on 1 June, with the tides of the day
    and the Low of 08:00 on 2 June, the sequence is chronological; the
    candidate of that Low, 10:00 on 2 June, is after [now] and within
    06:00-19:30 of its own date, and no earlier event qualifies, so section
    4.2 gives that candidate; the calculator, whose window is the one of
    1 June, returns nothing. *)
Theorem calculator_misses_tomorrow_morning :
  chronological exTwoDays /\
  optimalTimeOwnDate EDT exEightPM exTwoDays
  = Some (exLow0800Tomorrow, Valid (localTime EDT (june1 + 1) 10 0)) /\
  exCalculate exEightPM exTwoDays = None.
Proof. repeat split. Qed.

(** ** Fetching *)

Section FetchClaims.

Variable toLocaleTimeString toLocaleDateString : TimeValue -> string.
Variable dateParse : string -> TimeValue.
Variable heightToFixed1 : string -> string.

Local Abbreviation normalizeOne :=
  (normalize toLocaleTimeString toLocaleDateString dateParse heightToFixed1).
Local Abbreviation fetch :=
  (fetchNOAATideData toLocaleTimeString toLocaleDateString dateParse heightToFixed1).
Local Abbreviation finalState :=
  (afterFetch toLocaleTimeString toLocaleDateString dateParse heightToFixed1).

(** The setter calls of a fetch that succeeds. *)
Lemma fetch_success (status now : Z) (predictions : list Prediction) :
  fetch (inr (mkResponse true status (inr (PredictionsBody predictions)))) now
  = (inr tt,
     [SetLoading true; SetError None;
      SetTideData (buildTideData (map normalizeOne predictions) now);
      SetLoading false]).
Proof. reflexivity. Qed.

(** The setter calls of a fetch that fails: the message is set, the
    dataset is not. *)
Lemma fetch_failure (upstream : Upstream) (now : Z) :
  upstreamFails upstream = true ->
  exists message,
    fetch upstream now
    = (inr tt, [SetLoading true; SetError None; SetError (Some message); SetLoading false]).
Proof.
  destruct upstream as [[message |] | [[] status [[message |] | [message | predictions | message]]]];
    simpl; intros H; try discriminate; eexists; reflexivity.
Qed.

(** C3 (amended): the events of the dataset are the raw records in the
    order of their arrival, each with the timestamp parsed from its
    record; they are ascending by timestamp exactly when the records
    arrive so. *)
Theorem normalize_keeps_arrival_order (status now : Z) (predictions : list Prediction) :
  snd (fetch (inr (mkResponse true status (inr (PredictionsBody predictions)))) now)
  = [SetLoading true; SetError None;
     SetTideData (buildTideData (map normalizeOne predictions) now);
     SetLoading false] /\
  map timestamp (tides (buildTideData (map normalizeOne predictions) now))
  = map (fun prediction => dateParse (p_t prediction)) predictions /\
  ascending (map timestamp (tides (buildTideData (map normalizeOne predictions) now)))
  = ascending (map (fun prediction => dateParse (p_t prediction)) predictions).
Proof.
  assert (Hts : map timestamp (map normalizeOne predictions)
                = map (fun prediction => dateParse (p_t prediction)) predictions).
  { rewrite map_map. reflexivity. }
  split; [reflexivity |]. simpl. rewrite Hts. split; reflexivity.
Qed.

(** C9: a fetch that fails calls [setTideData] at no point, so the
    dataset of the prior state is the dataset of the final state; the
    final state has the loading flag down and an error message. *)
Theorem failed_fetch_keeps_dataset (upstream : Upstream) (now : Z) (c : Component) :
  upstreamFails upstream = true ->
  forallb (fun u => negb (isSetTideData u)) (snd (fetch upstream now)) = true /\
  tideData (finalState upstream now c) = tideData c /\
  loading (finalState upstream now c) = false /\
  exists message, error (finalState upstream now c) = Some message.
Proof.
  intros Hfail. destruct (fetch_failure upstream now Hfail) as (message & Heq).
  unfold afterFetch. rewrite Heq. simpl.
  repeat split. now exists message.
Qed.

End FetchClaims.

(** C3 as stated fails: two records that arrive with the later one first
    give a dataset whose events are in that order, not ascending. *)
Lemma fetch_keeps_unordered_records :
  exists d,
    snd (exFetch (inr (mkResponse true 200 (inr (PredictionsBody exUnorderedPredictions))))
           exSevenAM)
    = [SetLoading true; SetError None; SetTideData d; SetLoading false] /\
    map timestamp (tides d)
    = [Valid (localTime EDT (june1 + 1) 8 0); Valid (localTime EDT june1 14 0)] /\
    ascending (map timestamp (tides d)) = false.
Proof. eexists. repeat split. Qed.

Lemma failed_fetch_keeps_dataset_witness :
  forallb (fun u => negb (isSetTideData u)) (snd (exFetch exServiceUnavailable exEightPM)) = true /\
  tideData (afterFetch (enUSTimeString EDT) (enUSDateString EDT) (noaaDateParse EDT)
              oneDecimalHeight exServiceUnavailable exEightPM exComponent)
  = Some exDataset /\
  loading (afterFetch (enUSTimeString EDT) (enUSDateString EDT) (noaaDateParse EDT)
             oneDecimalHeight exServiceUnavailable exEightPM exComponent) = false /\
  exists message,
    error (afterFetch (enUSTimeString EDT) (enUSDateString EDT) (noaaDateParse EDT)
             oneDecimalHeight exServiceUnavailable exEightPM exComponent) = Some message.
Proof.
  apply (failed_fetch_keeps_dataset (enUSTimeString EDT) (enUSDateString EDT)
           (noaaDateParse EDT) oneDecimalHeight exServiceUnavailable exEightPM exComponent).
  reflexivity.
Defined.

(** ** The next tide of the dataset *)

(** C10 (amended): on a non-empty sequence [nextTide] is an element of the
    sequence:
    the first one, in sequence order, whose timestamp is strictly after
    [now], which on a chronological sequence is no later than any other
    future event; and the first element of the sequence when no timestamp
    is after [now]. *)
Theorem nextTide_is_first_future_or_head (tides : list Tide) (now : Z) :
  tides <> [] ->
  exists next,
    nextTide (buildTideData tides now) = Some next /\
    In next tides /\
    ((exists pre post,
         tides = pre ++ next :: post /\
         isFuture now next = true /\
         forall e, In e pre -> isFuture now e = false)
     \/
     ((forall e, In e tides -> isFuture now e = false) /\
      hd_error tides = Some next)) /\
    (chronological tides ->
     forall e, In e tides -> isFuture now e = true ->
               tv_le (timestamp next) (timestamp e) = true).
Proof.
  intros Hne. simpl. unfold findNextTide.
  destruct (find (isFuture now) tides) as [next |] eqn:Hfind.
  - exists next. split; [reflexivity |].
    destruct (find_first _ _ _ Hfind) as (pre & post & Heq & Hfut & Hpre).
    split; [rewrite Heq; apply in_or_app; right; now left |].
    split; [left; exists pre, post; auto |].
    intros Hchr e He Hfe.
    assert (Hnear : nearestFuture now tides = Some next).
    { rewrite (nearestFuture_chronological now tides Hchr).
      rewrite <- find_is_head_of_filter. exact Hfind. }
    destruct (nearestFuture_least now tides next Hnear) as (_ & _ & Hmin).
    now apply Hmin.
  - destruct tides as [| first rest]; [congruence |].
    exists first. split; [reflexivity |]. split; [now left |].
    assert (Hnone : forall e, In e (first :: rest) -> isFuture now e = false).
    { intros e He. apply (find_none _ _ Hfind e He). }
    split; [right; split; [exact Hnone | reflexivity] |].
    intros _ e He Hfe. rewrite (Hnone e He) in Hfe. discriminate.
Qed.

(** C10 as stated fails on a sequence that is not chronological: at 09:00,
    with the tides of the day latest first, [nextTide] is the High of
    18:00, the first future event of the sequence, while the Low of 12:00
    is in the sequence, after [now] and earlier. *)
Lemma nextTide_not_earliest_when_latest_first :
  exLatestFirst <> [] /\
  nextTide (buildTideData exLatestFirst exNineAM) = Some exHigh1800 /\
  In exLow1200 exLatestFirst /\
  isFuture exNineAM exLow1200 = true /\
  timestamp exLow1200 = Valid (localTime EDT june1 12 0) /\
  timestamp exHigh1800 = Valid (localTime EDT june1 18 0) /\
  localTime EDT june1 12 0 < localTime EDT june1 18 0.
Proof.
  repeat split; try reflexivity.
  - discriminate.
  - simpl. tauto.
Qed.

Lemma nextTide_is_first_future_or_head_witness :
  exists next,
    nextTide (buildTideData exTwoDays exNineAM) = Some next /\
    In next exTwoDays /\
    ((exists pre post,
         exTwoDays = pre ++ next :: post /\
         isFuture exNineAM next = true /\
         forall e, In e pre -> isFuture exNineAM e = false)
     \/
     ((forall e, In e exTwoDays -> isFuture exNineAM e = false) /\
      hd_error exTwoDays = Some next)) /\
    (chronological exTwoDays ->
     forall e, In e exTwoDays -> isFuture exNineAM e = true ->
               tv_le (timestamp next) (timestamp e) = true).
Proof.
  apply (nextTide_is_first_future_or_head exTwoDays exNineAM).
  discriminate.
Defined.


(** * Further properties of the code *)

(** ** More on lists *)

Lemma filter_of_filter {A : Type} (f keep : A -> bool) (l : list A) :
  (forall x, In x l -> f x = true -> keep x = true) ->
  filter f (filter keep l) = filter f l.
Proof.
  induction l as [| a l IH]; intros H; simpl.
  - reflexivity.
  - assert (IH' : filter f (filter keep l) = filter f l).
    { apply IH. intros x Hx. apply H. now right. }
    destruct (keep a) eqn:Hk; simpl.
    + rewrite IH'. reflexivity.
    + destruct (f a) eqn:Hf; [| exact IH'].
      rewrite (H a (or_introl eq_refl) Hf) in Hk. discriminate.
Qed.

Lemma filter_disjoint_length {A : Type} (f g : A -> bool) (l : list A) :
  (forall x, f x = true -> g x = false) ->
  (List.length (filter f l) + List.length (filter g l) <= List.length l)%nat.
Proof.
  intros H. induction l as [| a l IH]; simpl.
  - lia.
  - destruct (f a) eqn:Hf.
    + rewrite (H a Hf). simpl. lia.
    + destruct (g a); simpl; lia.
Qed.

Lemma lastElement_some {A : Type} (l : list A) :
  l <> [] -> exists x, lastElement l = Some x.
Proof.
  intros H. destruct (lastElement l) as [x |] eqn:Hl.
  - now exists x.
  - apply lastElement_none in Hl. contradiction.
Qed.

Lemma past_not_future (now : Z) (tide : Tide) :
  isPast now tide = true -> isFuture now tide = false.
Proof.
  unfold isPast, isFuture. destruct (timestamp tide); simpl; [| discriminate].
  rewrite Z.ltb_lt, Z.ltb_ge. lia.
Qed.

(** ** More on the tide direction *)

(** The body of [getCurrentTideDirection], by the shape of [futureTides]. *)
Lemma direction_by_cases (tides : list Tide) (now : Z) :
  getCurrentTideDirection tides now =
  match filter (isFuture now) tides with
  | nextTide :: _ :: _ =>
      match lastElement (filter (isPast now) tides) with
      | Some _ => if String.eqb (type nextTide) "High" then "Rising" else "Falling"
      | None => "Unknown"
      end
  | _ => "Unknown"
  end.
Proof.
  unfold getCurrentTideDirection.
  destruct (filter (isFuture now) tides) as [| a [| b l]]; reflexivity.
Qed.

Lemma has_past_iff (tides : list Tide) (now : Z) :
  (exists e, In e tides /\ isPast now e = true) <->
  lastElement (filter (isPast now) tides) <> None.
Proof.
  split.
  - intros H. destruct (past_event_gives_prevTide tides now H) as (p & ->). discriminate.
  - intros H. destruct (filter (isPast now) tides) as [| e l] eqn:Hf; [now elim H |].
    exists e. apply filter_In. rewrite Hf. now left.
Qed.

(** X1: the classifier answers ["Unknown"], ["Rising"] or ["Falling"], and
    it answers other than ["Unknown"] exactly when at least two events are
    strictly after [now] and at least one is strictly before, whatever the
    order of the sequence. *)
Theorem direction_known_iff (tides : list Tide) (now : Z) :
  (getCurrentTideDirection tides now = "Unknown" \/
   getCurrentTideDirection tides now = "Rising" \/
   getCurrentTideDirection tides now = "Falling") /\
  (getCurrentTideDirection tides now <> "Unknown" <->
   (2 <= countFuture now tides)%nat /\
   exists e, In e tides /\ isPast now e = true).
Proof.
  rewrite has_past_iff, direction_by_cases. unfold countFuture.
  destruct (filter (isFuture now) tides) as [| a [| b l]]; simpl.
  - split; [now left |]. split; [congruence | lia].
  - split; [now left |]. split; [congruence | lia].
  - destruct (lastElement (filter (isPast now) tides)) as [p |].
    + destruct (String.eqb (type a) "High").
      * split; [right; now left |]. split; [intros _; split; [lia | discriminate] | discriminate].
      * split; [right; now right |]. split; [intros _; split; [lia | discriminate] | discriminate].
    + split; [now left |]. split; [congruence | intros [_ H]; congruence].
Qed.

(** X2: on any sequence the answer is ["Rising"] exactly when the answer is
    known and the first event of the sequence that is strictly after
    [now] has kind ["High"]; every other kind of that event gives
    ["Falling"]. *)
Theorem direction_rising_iff_first_future_high (tides : list Tide) (now : Z) :
  getCurrentTideDirection tides now <> "Unknown" ->
  exists next,
    find (isFuture now) tides = Some next /\
    (getCurrentTideDirection tides now = "Rising" <-> type next = "High") /\
    (getCurrentTideDirection tides now = "Falling" <-> type next <> "High").
Proof.
  rewrite find_is_head_of_filter, direction_by_cases.
  destruct (filter (isFuture now) tides) as [| a [| b l]]; simpl; try congruence.
  destruct (lastElement (filter (isPast now) tides)) as [p |]; [| congruence].
  intros _. exists a. split; [reflexivity |].
  destruct (String.eqb_spec (type a) "High") as [Heq | Hne].
  - split; split; intros H; try tauto; try discriminate; contradiction.
  - split; split; intros H; try tauto; try discriminate; contradiction.
Qed.

Lemma direction_rising_iff_first_future_high_witness :
  exists next,
    find (isFuture exNineAM) exOnePastTwoFuture = Some next /\
    (getCurrentTideDirection exOnePastTwoFuture exNineAM = "Rising" <-> type next = "High") /\
    (getCurrentTideDirection exOnePastTwoFuture exNineAM = "Falling" <-> type next <> "High").
Proof.
  apply (direction_rising_iff_first_future_high exOnePastTwoFuture exNineAM).
  vm_compute. discriminate.
Defined.

(** X3: a sequence of fewer than three events always gives ["Unknown"]:
    the answer needs two events ahead and one behind. *)
Theorem direction_needs_three_events (tides : list Tide) (now : Z) :
  (List.length tides < 3)%nat -> getCurrentTideDirection tides now = "Unknown".
Proof.
  intros Hlen.
  pose proof (filter_disjoint_length (isPast now) (isFuture now) tides
                (past_not_future now)) as Hsum.
  rewrite direction_by_cases.
  destruct (filter (isFuture now) tides) as [| a [| b l]]; try reflexivity.
  destruct (filter (isPast now) tides) as [| p ps]; [reflexivity |].
  simpl in Hsum. lia.
Qed.

Lemma direction_needs_three_events_witness :
  getCurrentTideDirection exOnePastOneFuture exNineAM = "Unknown".
Proof.
  apply (direction_needs_three_events exOnePastOneFuture exNineAM).
  simpl. lia.
Defined.

(** X4: events that are neither strictly before nor strictly after [now]
    (an unparsed timestamp, or a timestamp equal to [now]) do not count:
    removing any of them leaves the answer unchanged. *)
Theorem direction_ignores_events_not_before_nor_after
    (keep : Tide -> bool) (tides : list Tide) (now : Z) :
  (forall e, In e tides -> isPast now e || isFuture now e = true -> keep e = true) ->
  getCurrentTideDirection (filter keep tides) now = getCurrentTideDirection tides now.
Proof.
  intros H. rewrite !direction_by_cases.
  rewrite (filter_of_filter (isFuture now) keep tides),
          (filter_of_filter (isPast now) keep tides); [reflexivity | |].
  - intros e He Hp. apply (H e He). rewrite Hp. reflexivity.
  - intros e He Hf. apply (H e He). rewrite Hf. apply orb_true_r.
Qed.

Lemma direction_ignores_events_not_before_nor_after_witness :
  getCurrentTideDirection
    (filter validTimestamp (exHigh0600 :: exUnparsed :: [exLow1200; exHigh1800])) exNineAM
  = getCurrentTideDirection (exHigh0600 :: exUnparsed :: [exLow1200; exHigh1800]) exNineAM.
Proof.
  apply (direction_ignores_events_not_before_nor_after validTimestamp).
  intros e He. simpl in He.
  destruct He as [<- | [<- | [<- | [<- | []]]]]; vm_compute; congruence.
Defined.

(** X5: in a dataset whose direction is known, [nextTide] is the event the
    direction was read from: it is strictly after [now], the direction is
    ["Rising"] exactly when its kind is ["High"], and ["Falling"]
    otherwise. *)
Theorem dataset_direction_agrees_with_nextTide (tides : list Tide) (now : Z) :
  currentTide (buildTideData tides now) <> "Unknown" ->
  exists next,
    nextTide (buildTideData tides now) = Some next /\
    isFuture now next = true /\
    (currentTide (buildTideData tides now) = "Rising" <-> type next = "High") /\
    (currentTide (buildTideData tides now) = "Falling" <-> type next <> "High").
Proof.
  simpl. unfold findNextTide. rewrite find_is_head_of_filter, direction_by_cases.
  destruct (filter (isFuture now) tides) as [| a [| b l]] eqn:Hf; simpl; try congruence.
  destruct (lastElement (filter (isPast now) tides)) as [p |]; [| congruence].
  intros _. exists a. split; [reflexivity |]. split.
  - assert (Hin : In a (filter (isFuture now) tides)) by (rewrite Hf; now left).
    apply filter_In in Hin. tauto.
  - destruct (String.eqb_spec (type a) "High") as [Heq | Hne];
      split; split; intros H; try tauto; try discriminate; contradiction.
Qed.

Lemma dataset_direction_agrees_with_nextTide_witness :
  exists next,
    nextTide (buildTideData exOnePastTwoFuture exNineAM) = Some next /\
    isFuture exNineAM next = true /\
    (currentTide (buildTideData exOnePastTwoFuture exNineAM) = "Rising" <-> type next = "High") /\
    (currentTide (buildTideData exOnePastTwoFuture exNineAM) = "Falling" <-> type next <> "High").
Proof.
  apply (dataset_direction_agrees_with_nextTide exOnePastTwoFuture exNineAM).
  vm_compute. discriminate.
Defined.

(** ** More on the calculator *)

Section CalculatorExtras.

Variable localOffset : Z.
Variable toLocaleTimeString toLocaleDateString : TimeValue -> string.

Local Abbreviation scan := (scanTides toLocaleTimeString toLocaleDateString).
Local Abbreviation calculate :=
  (calculateThunderHoleTime localOffset toLocaleTimeString toLocaleDateString).

Lemma scan_finds (now sunrise sunset : Z) (tides : list Tide) (e : Tide) :
  In e tides ->
  inDaylightAndFuture now sunrise sunset (candidateTime e) = true ->
  exists r, scan now sunrise sunset tides = Some r.
Proof.
  induction tides as [| tide rest IH]; intros Hin Htest.
  - destruct Hin.
  - destruct (inDaylightAndFuture now sunrise sunset (candidateTime tide)) eqn:Ht.
    + destruct (scan_accept toLocaleTimeString toLocaleDateString _ _ _ tide rest Ht)
        as (c & _ & Heq).
      rewrite Heq. eexists. reflexivity.
    + rewrite (scan_skip toLocaleTimeString toLocaleDateString _ _ _ _ _ Ht).
      destruct Hin as [Heq | Hin]; [subst tide; congruence | auto].
Qed.

Lemma scan_hours (now sunrise sunset : Z) (tides : list Tide) (r : ThunderHoleTime) :
  scan now sunrise sunset tides = Some r ->
  hoursFromNow r = Qmake (th_timestamp r - now) 3600000.
Proof.
  induction tides as [| tide rest IH]; intros H.
  - discriminate.
  - destruct (inDaylightAndFuture now sunrise sunset (candidateTime tide)) eqn:Ht.
    + destruct (scan_accept toLocaleTimeString toLocaleDateString _ _ _ tide rest Ht)
        as (c & _ & Heq).
      rewrite Heq in H. inversion H. reflexivity.
    + rewrite (scan_skip toLocaleTimeString toLocaleDateString _ _ _ _ _ Ht) in H. auto.
Qed.

Lemma scan_app (now sunrise sunset : Z) (l1 l2 : list Tide) :
  scan now sunrise sunset (l1 ++ l2) =
  match scan now sunrise sunset l1 with
  | Some r => Some r
  | None => scan now sunrise sunset l2
  end.
Proof.
  induction l1 as [| tide rest IH].
  - reflexivity.
  - rewrite <- app_comm_cons.
    destruct (inDaylightAndFuture now sunrise sunset (candidateTime tide)) eqn:Ht.
    + destruct (scan_accept toLocaleTimeString toLocaleDateString _ _ _ tide rest Ht)
        as (c & Hc & Heq).
      destruct (scan_accept toLocaleTimeString toLocaleDateString _ _ _ tide (rest ++ l2) Ht)
        as (c' & Hc' & Heq').
      rewrite Heq, Heq'. congruence.
    + rewrite !(scan_skip toLocaleTimeString toLocaleDateString _ _ _ _ _ Ht). exact IH.
Qed.

Lemma scan_filter (now sunrise sunset : Z) (keep : Tide -> bool) (tides : list Tide) :
  (forall e, In e tides ->
             inDaylightAndFuture now sunrise sunset (candidateTime e) = true ->
             keep e = true) ->
  scan now sunrise sunset (filter keep tides) = scan now sunrise sunset tides.
Proof.
  induction tides as [| tide rest IH]; intros H.
  - reflexivity.
  - assert (IH' : scan now sunrise sunset (filter keep rest) = scan now sunrise sunset rest).
    { apply IH. intros e He. apply H. now right. }
    destruct (inDaylightAndFuture now sunrise sunset (candidateTime tide)) eqn:Ht.
    + simpl filter. rewrite (H tide (or_introl eq_refl) Ht).
      destruct (scan_accept toLocaleTimeString toLocaleDateString _ _ _ tide rest Ht)
        as (c & Hc & Heq).
      destruct (scan_accept toLocaleTimeString toLocaleDateString _ _ _ tide
                  (filter keep rest) Ht) as (c' & Hc' & Heq').
      rewrite Heq, Heq'. congruence.
    + rewrite (scan_skip toLocaleTimeString toLocaleDateString _ _ _ _ _ Ht).
      simpl filter. destruct (keep tide); [| exact IH'].
      rewrite (scan_skip toLocaleTimeString toLocaleDateString _ _ _ _ _ Ht). exact IH'.
Qed.

(** X6: the calculator returns nothing exactly when no event of the
    sequence has a candidate that is after [now] and inside today's
    window; one such event anywhere in the sequence is enough for a
    result. *)
Theorem calculate_none_iff (now : Z) (tides : list Tide) :
  calculate now tides = None <->
  forall e, In e tides -> qualifiesToday localOffset now e = false.
Proof.
  split.
  - intros Hnone e He.
    destruct (qualifiesToday localOffset now e) eqn:Hq; [| reflexivity].
    destruct (scan_finds _ _ _ tides e He Hq) as (r & Hr).
    unfold calculateThunderHoleTime in Hnone. rewrite Hr in Hnone. discriminate.
  - apply scan_none.
Qed.

(** X7: whatever instants [sunrise] and [sunset] hold, a time returned by
    the loop of lines 117-140 is strictly after [now], not before
    [sunrise] and not after [sunset], and [hoursFromNow] is positive; the
    calculator runs that loop with the two instants it builds from
    [now]. *)
Theorem returned_time_passes_the_test
    (now sunrise sunset : Z) (tides : list Tide) (r : ThunderHoleTime) :
  scan now sunrise sunset tides = Some r ->
  now < th_timestamp r /\
  sunrise <= th_timestamp r <= sunset /\
  (0 < hoursFromNow r)%Q.
Proof.
  intros H.
  pose proof (scan_hours _ _ _ _ _ H) as Hhours.
  destruct (scan_some toLocaleTimeString toLocaleDateString _ _ _ _ _ H)
    as (_ & _ & _ & _ & Htest & Hc).
  rewrite Hc in Htest.
  destruct (test_true_valid _ _ _ _ Htest) as (c & Heq & Hnow & Hlo & Hhi).
  inversion Heq; subst c. clear Heq.
  rewrite Hhours. unfold Qlt. simpl Qnum. simpl Qden.
  repeat split; try assumption; lia.
Qed.

(** X8: from 19:30 local time until the end of the day the calculator
    returns nothing, whatever the tides. *)
Theorem calculate_none_after_sunset (now : Z) (tides : list Tide) :
  localTime localOffset ((now + localOffset) / msPerDay) 19 30 <= now ->
  calculate now tides = None.
Proof.
  intros Hlate. apply scan_none. intros e _.
  destruct (inDaylightAndFuture now (setHours localOffset now 6 0)
              (setHours localOffset now 19 30) (candidateTime e)) eqn:Htest;
    [| reflexivity].
  destruct (test_true_valid _ _ _ _ Htest) as (c & _ & Hnow & _ & Hhi).
  unfold setHours in Hhi. unfold localTime in Hlate. lia.
Qed.

(** X9: the scan of two sequences end to end is the result on the first
    when there is one, and the result on the second otherwise: events
    added at the end never change a result already found. *)
Theorem calculate_app (now : Z) (l1 l2 : list Tide) :
  calculate now (l1 ++ l2) =
  match calculate now l1 with
  | Some r => Some r
  | None => calculate now l2
  end.
Proof. apply scan_app. Qed.

(** X10: removing events whose candidate does not pass the test (events
    with an unparsed timestamp, events whose candidate is not after [now]
    or not in today's window) never changes the result. *)
Theorem calculate_ignores_non_qualifying
    (keep : Tide -> bool) (now : Z) (tides : list Tide) :
  (forall e, In e tides -> qualifiesToday localOffset now e = true -> keep e = true) ->
  calculate now (filter keep tides) = calculate now tides.
Proof. apply scan_filter. Qed.

(** X11: the tide named in a result has a parsed timestamp, at most three
    hours before the returned time and less than three hours before
    [now]: it may already be past, by less than three hours. *)
Theorem calculate_related_tide_recent (now : Z) (tides : list Tide) (r : ThunderHoleTime) :
  calculate now tides = Some r ->
  exists t,
    timestamp (relatedTide r) = Valid t /\
    now - 3 * msPerHour < t /\
    th_timestamp r - 3 * msPerHour <= t <= th_timestamp r - 2 * msPerHour.
Proof.
  intros H.
  destruct (calculate_some _ _ _ now tides r H) as (_ & _ & _ & _ & Htest & Hc).
  unfold qualifiesToday in Htest. rewrite Hc in Htest.
  destruct (test_true_valid _ _ _ _ Htest) as (c & Heq & Hnow & _).
  inversion Heq; subst c. clear Heq Htest.
  destruct (candidateTime_valid _ _ Hc) as (t & Ht & Hsum).
  exists t. split; [exact Ht |].
  change msPerHour with 3600000 in *.
  destruct (String.eqb (type (relatedTide r)) "Low"); lia.
Qed.

End CalculatorExtras.

Lemma returned_time_passes_the_test_witness :
  exSevenAM < 1748786400000 /\
  setHours EDT exSevenAM 6 0 <= 1748786400000 <= setHours EDT exSevenAM 19 30 /\
  (0 < Qmake (1748786400000 - exSevenAM) 3600000)%Q.
Proof.
  exact (returned_time_passes_the_test (enUSTimeString EDT) (enUSDateString EDT)
           exSevenAM (setHours EDT exSevenAM 6 0) (setHours EDT exSevenAM 19 30)
           [exLow0800; exHigh1400] _ eq_refl).
Defined.

Lemma calculate_none_after_sunset_witness :
  exCalculate exEightPM exTwoDays = None.
Proof.
  apply (calculate_none_after_sunset EDT (enUSTimeString EDT) (enUSDateString EDT)
           exEightPM exTwoDays).
  vm_compute. discriminate.
Defined.

Lemma calculate_ignores_non_qualifying_witness :
  exCalculate exSevenAM (filter validTimestamp (exUnparsed :: [exLow0800; exHigh1400]))
  = exCalculate exSevenAM (exUnparsed :: [exLow0800; exHigh1400]).
Proof.
  apply (calculate_ignores_non_qualifying EDT (enUSTimeString EDT) (enUSDateString EDT)
           validTimestamp exSevenAM (exUnparsed :: [exLow0800; exHigh1400])).
  intros e He. simpl in He.
  destruct He as [<- | [<- | [<- | []]]]; vm_compute; congruence.
Defined.

Lemma calculate_related_tide_recent_witness :
  exists t,
    timestamp exLow0800 = Valid t /\
    exSevenAM - 3 * msPerHour < t /\
    1748786400000 - 3 * msPerHour <= t <= 1748786400000 - 2 * msPerHour.
Proof.
  exact (calculate_related_tide_recent EDT (enUSTimeString EDT) (enUSDateString EDT)
           exSevenAM [exLow0800; exHigh1400] _ eq_refl).
Defined.

(** ** More on fetching and on what is shown *)

Lemma prefix_append (s t : string) : String.prefix s (String.append s t) = true.
Proof.
  induction s as [| c s IH]; simpl.
  - destruct t; reflexivity.
  - destruct (ascii_dec c c) as [_ | Hne]; [exact IH | now elim Hne].
Qed.

Section FetchExtras.

Variable toLocaleTimeString toLocaleDateString : TimeValue -> string.
Variable dateParse : string -> TimeValue.
Variable heightToFixed1 : string -> string.

Local Abbreviation normalizeOne :=
  (normalize toLocaleTimeString toLocaleDateString dateParse heightToFixed1).
Local Abbreviation fetch :=
  (fetchNOAATideData toLocaleTimeString toLocaleDateString dateParse heightToFixed1).
Local Abbreviation finalState :=
  (afterFetch toLocaleTimeString toLocaleDateString dateParse heightToFixed1).
Local Abbreviation run :=
  (runFetches toLocaleTimeString toLocaleDateString dateParse heightToFixed1).

Lemma upstream_succeeds (upstream : Upstream) :
  upstreamFails upstream = false ->
  exists status predictions,
    upstream = inr (mkResponse true status (inr (PredictionsBody predictions))).
Proof.
  destruct upstream as [e | [[] status [e | [message | predictions | message]]]];
    simpl; try discriminate.
  intros _. now exists status, predictions.
Qed.

(** The message a failed fetch leaves. *)
Lemma fetch_failure_message (upstream : Upstream) (now : Z) :
  upstreamFails upstream = true ->
  exists detail,
    fetch upstream now
    = (inr tt,
       [SetLoading true; SetError None;
        SetError (Some (String.append "Failed to fetch tide data: " detail));
        SetLoading false]).
Proof.
  destruct upstream as [[message |] | [[] status [[message |] | [message | predictions | message]]]];
    simpl; intros H; try discriminate; eexists; reflexivity.
Qed.

Lemma run_snoc (c : Component) (fetches : list (Upstream * Z)) (upstream : Upstream) (now : Z) :
  run c (fetches ++ [(upstream, now)]) = finalState upstream now (run c fetches).
Proof. unfold runFetches. rewrite fold_left_app. reflexivity. Qed.

Lemma run_app (c : Component) (first second : list (Upstream * Z)) :
  run c (first ++ second) = run (run c first) second.
Proof. unfold runFetches. apply fold_left_app. Qed.

Lemma run_cons (c : Component) (upstream : Upstream) (now : Z) (rest : list (Upstream * Z)) :
  run c ((upstream, now) :: rest) = run (finalState upstream now c) rest.
Proof. reflexivity. Qed.

Lemma run_all_failed (c : Component) (fetches : list (Upstream * Z)) :
  (forall f, In f fetches -> upstreamFails (fst f) = true) ->
  tideData (run c fetches) = tideData c.
Proof.
  revert c. induction fetches as [| [upstream now] rest IH]; intros c Hall.
  - reflexivity.
  - rewrite run_cons.
    rewrite IH by (intros f Hf; apply Hall; now right).
    destruct (fetch_failure toLocaleTimeString toLocaleDateString dateParse heightToFixed1
                upstream now (Hall (upstream, now) (or_introl eq_refl))) as (message & Heq).
    unfold afterFetch. rewrite Heq. reflexivity.
Qed.

(** X12: while a fetch is in flight, that is after its first setter call
    and before its last, the loading panel is shown and the dataset panel
    is hidden, whatever the outcome and the prior state; once the fetch
    has completed the loading panel is hidden. *)
Theorem loading_shown_while_in_flight (upstream : Upstream) (now : Z) (c : Component) (k : nat) :
  (1 <= k < List.length (snd (fetch upstream now)))%nat ->
  loadingPanel (applyUpdates c (firstn k (snd (fetch upstream now)))) = true /\
  dataPanel (applyUpdates c (firstn k (snd (fetch upstream now)))) = None /\
  loadingPanel (finalState upstream now c) = false.
Proof.
  unfold afterFetch. destruct (upstreamFails upstream) eqn:Hfail.
  - destruct (fetch_failure toLocaleTimeString toLocaleDateString dateParse heightToFixed1
                upstream now Hfail) as (message & ->).
    simpl. intros Hk.
    destruct k as [| [| [| [| k]]]]; try lia; unfold dataPanel; simpl;
      destruct (tideData c); repeat split.
  - destruct (upstream_succeeds upstream Hfail) as (status & predictions & ->).
    simpl. intros Hk.
    destruct k as [| [| [| [| k]]]]; try lia; unfold dataPanel; simpl;
      try destruct (tideData c); repeat split.
Qed.

(** X13: a failed fetch leaves a message that starts with
    ["Failed to fetch tide data: "], so the error panel shows it; when the
    status is not a success the body is not read and the message is
    ["Failed to fetch tide data: NOAA API error: "] followed by the
    status. *)
Theorem failed_fetch_message (upstream : Upstream) (now : Z) (c : Component) :
  upstreamFails upstream = true ->
  (exists message,
      error (finalState upstream now c) = Some message /\
      errorPanel (finalState upstream now c) = Some message /\
      String.prefix "Failed to fetch tide data: " message = true) /\
  (forall status body,
      upstream = inr (mkResponse false status body) ->
      error (finalState upstream now c)
      = Some (String.append "Failed to fetch tide data: NOAA API error: "
                (statusToString status))).
Proof.
  intros Hfail. split.
  - destruct (fetch_failure_message upstream now Hfail) as (detail & Heq).
    unfold afterFetch, errorPanel. rewrite Heq. simpl.
    eexists. split; [reflexivity |].
    split; [reflexivity | exact (prefix_append "Failed to fetch tide data: " detail)].
  - intros status body ->. reflexivity.
Qed.

(** X14: after any sequence of fetches the dataset is the one of the last
    fetch that succeeded, built from its records and its instant; when
    none succeeded it is the dataset the sequence started with. *)
Theorem dataset_is_from_last_successful_fetch (c : Component) :
  (forall fetches,
      (forall f, In f fetches -> upstreamFails (fst f) = true) ->
      tideData (run c fetches) = tideData c) /\
  (forall before status predictions now after,
      (forall f, In f after -> upstreamFails (fst f) = true) ->
      tideData (run c (before
                         ++ (inr (mkResponse true status (inr (PredictionsBody predictions))), now)
                         :: after))
      = Some (buildTideData (map normalizeOne predictions) now)).
Proof.
  split.
  - apply run_all_failed.
  - intros before status predictions now after Hafter.
    rewrite run_app, run_cons, (run_all_failed _ after Hafter). reflexivity.
Qed.

(** X15: once at least one fetch has completed the loading flag is down.
    When the last fetch failed the error panel shows its message and the
    dataset, if any, is the one from before; when it succeeded no error
    is shown and its dataset is handed to the markup.  The render throws,
    leaving the page empty, exactly when the dataset in the state has no
    [nextTide]; a render that completes shows the error or the
    dataset. *)
Theorem panels_after_fetches
    (c : Component) (fetches : list (Upstream * Z)) (upstream : Upstream) (now : Z) :
  let final := run c (fetches ++ [(upstream, now)]) in
  loadingPanel final = false /\
  (upstreamFails upstream = true ->
   (exists message, errorPanel final = Some message) /\
   dataPanel final = tideData (run c fetches)) /\
  (upstreamFails upstream = false ->
   errorPanel final = None /\ exists d, dataPanel final = Some d) /\
  (renderScreen final = None <->
   exists d, tideData final = Some d /\ nextTide d = None) /\
  (forall screen, renderScreen final = Some screen ->
                  shownLoading screen = false /\
                  (shownError screen <> None \/ shownData screen <> None)).
Proof.
  intros final. unfold final. rewrite run_snoc. clear final.
  set (prior := run c fetches). unfold afterFetch.
  assert (Hrender : forall state,
             loading state = false ->
             (renderScreen state = None <->
              exists d, tideData state = Some d /\ nextTide d = None)).
  { intros state Hload. unfold renderScreen, dataPanel, nextTideLine. rewrite Hload.
    destruct (tideData state) as [d |]; simpl.
    - destruct (nextTide d) as [tide |] eqn:Hnext; split.
      + discriminate.
      + intros (d' & Hd' & Hnone). inversion Hd'; subst d'. congruence.
      + intros _. now exists d.
      + reflexivity.
    - split; [discriminate | intros (d & Hd & _); discriminate]. }
  destruct (upstreamFails upstream) eqn:Hfail.
  - destruct (fetch_failure_message upstream now Hfail) as (detail & ->).
    split; [reflexivity |]. split.
    { intros _. unfold errorPanel, dataPanel. simpl. split.
      - eexists. reflexivity.
      - destruct (tideData prior); reflexivity. }
    split; [discriminate |]. split; [apply Hrender; reflexivity |].
    intros screen. unfold renderScreen, dataPanel, errorPanel, loadingPanel. simpl.
    destruct (tideData prior) as [d |]; simpl.
    + destruct (nextTideLine d); [| discriminate].
      intros Hs. inversion Hs. simpl. split; [reflexivity | left; discriminate].
    + intros Hs. inversion Hs. simpl. split; [reflexivity | left; discriminate].
  - destruct (upstream_succeeds upstream Hfail) as (status & predictions & ->).
    split; [reflexivity |]. split; [discriminate |]. split.
    { intros _. unfold errorPanel, dataPanel. simpl. split; [reflexivity |].
      eexists. reflexivity. }
    split; [apply Hrender; reflexivity |].
    intros screen. unfold renderScreen, dataPanel, errorPanel, loadingPanel. simpl.
    destruct (nextTideLine _); [| discriminate].
    intros Hs. inversion Hs. simpl. split; [reflexivity | right; discriminate].
Qed.

(** X16: the dataset of a successful fetch has no [nextTide] exactly when
    the service returned no record; the "Next Tide" line of the status
    panel then cannot be rendered, and it can in every other case. *)
Theorem nextTide_missing_iff_no_record (predictions : list Prediction) (now : Z) :
  (nextTide (buildTideData (map normalizeOne predictions) now) = None <-> predictions = []) /\
  (nextTideLine (buildTideData (map normalizeOne predictions) now) = None <-> predictions = []).
Proof.
  unfold nextTideLine. simpl. unfold findNextTide.
  destruct predictions as [| p rest]; simpl.
  - split; split; reflexivity.
  - destruct (isFuture now (normalizeOne p)); [split; split; discriminate |].
    destruct (find (isFuture now) (map normalizeOne rest)); split; split; discriminate.
Qed.

(** X17: normalising keeps every record, drops none, and gives each event
    the kind ["High"] or ["Low"]: ["High"] exactly for the marker ["H"],
    ["Low"] for any other marker. *)
Theorem normalize_kinds (predictions : list Prediction) :
  List.length (map normalizeOne predictions) = List.length predictions /\
  (forall tide, In tide (map normalizeOne predictions) ->
                type tide = "High" \/ type tide = "Low") /\
  (forall p, type (normalizeOne p) = "High" <-> p_type p = "H") /\
  (forall p, type (normalizeOne p) = "Low" <-> p_type p <> "H").
Proof.
  split; [apply length_map |]. split; [| split].
  - intros tide Hin. apply in_map_iff in Hin. destruct Hin as (p & <- & _).
    simpl. destruct (String.eqb (p_type p) "H"); auto.
  - intros p. simpl. destruct (String.eqb_spec (p_type p) "H"); split; congruence.
  - intros p. simpl. destruct (String.eqb_spec (p_type p) "H"); split; congruence.
Qed.

End FetchExtras.

(** ** The dates of the request *)

(** The two calendar conversions are inverse of each other, and the
    years 0000 to 9999 are the days -719528 to 2932896. *)
Lemma civil_roundtrip_day (days : Z) :
  let '(y, m, d) := civilFromDays days in
  daysFromCivil y m d = days /\ 1 <= m <= 12 /\ 1 <= d <= 31.
Proof.
  unfold civilFromDays, daysFromCivil. cbv zeta.
  repeat match goal with |- context [if ?b then _ else _] => destruct b eqn:? end;
    rewrite ?Z.leb_le, ?Z.leb_gt, ?Z.ltb_lt, ?Z.ltb_ge in *;
    (Z.div_mod_to_equations; lia).
Qed.

Lemma civil_roundtrip (days y m d : Z) :
  civilFromDays days = (y, m, d) ->
  daysFromCivil y m d = days /\ 1 <= m <= 12 /\ 1 <= d <= 31 /\
  (-719528 <= days <= 2932896 -> 0 <= y <= 9999).
Proof.
  intros H. pose proof (civil_roundtrip_day days) as H0. rewrite H in H0.
  destruct H0 as (Hrt & Hm & Hd). clear H.
  split; [exact Hrt |]. split; [exact Hm |]. split; [exact Hd |].
  intros Hr. unfold daysFromCivil in Hrt. cbv zeta in Hrt.
  destruct (m <=? 2) eqn:Hm2; rewrite ?Z.leb_le, ?Z.leb_gt in *;
    Z.div_mod_to_equations; lia.
Qed.

Lemma digitChar_cases (n : Z) :
  exists k, (k < 10)%nat /\ digitChar n = ascii_of_nat (48 + k) /\ Z.of_nat k = n mod 10.
Proof.
  exists (Z.to_nat (n mod 10)).
  pose proof (Z.mod_pos_bound n 10 ltac:(lia)). repeat split; [lia | lia].
Qed.

Lemma digitChar_not_dash (n : Z) : Ascii.eqb (digitChar n) "-" = false.
Proof.
  destruct (digitChar_cases n) as (k & Hk & -> & _).
  do 10 (destruct k as [| k]; [reflexivity |]). lia.
Qed.

Lemma digitValue_digitChar (n : Z) : digitValue (digitChar n) = Some (n mod 10).
Proof.
  destruct (digitChar_cases n) as (k & Hk & -> & <-).
  do 10 (destruct k as [| k]; [reflexivity |]). lia.
Qed.

Lemma twoDigits_digitChar (n : Z) :
  0 <= n < 100 -> twoDigits (digitChar (n / 10)) (digitChar n) = Some n.
Proof.
  intros Hn. unfold twoDigits. rewrite !digitValue_digitChar. f_equal.
  Z.div_mod_to_equations. lia.
Qed.

Lemma fourDigits_digitChar (n : Z) :
  0 <= n < 10000 ->
  fourDigits (digitChar (n / 1000)) (digitChar (n / 100)) (digitChar (n / 10)) (digitChar n)
  = Some n.
Proof.
  intros Hn. unfold fourDigits, twoDigits. rewrite !digitValue_digitChar. f_equal.
  Z.div_mod_to_equations. lia.
Qed.

(** The compact date of a day between the years 0000 and 9999 reads back
    as the civil date of that day. *)
Lemma compact_date_reads_back (t : Z) :
  -719528 <= t / msPerDay <= 2932896 ->
  parseCompactDate (removeDashes (isoDate t)) = Some (civilFromDays (t / msPerDay)).
Proof.
  intros Hrange. unfold isoDate.
  destruct (civilFromDays (t / msPerDay)) as [[y m] d] eqn:Hcivil.
  destruct (civil_roundtrip _ _ _ _ Hcivil) as (_ & Hm & Hd & Hy).
  specialize (Hy Hrange).
  unfold pad4, pad2. cbn [String.append removeDashes].
  rewrite !digitChar_not_dash. cbn [Ascii.eqb Bool.eqb removeDashes].
  unfold parseCompactDate.
  rewrite (fourDigits_digitChar y), (twoDigits_digitChar m), (twoDigits_digitChar d) by lia.
  reflexivity.
Qed.

(** X18: for instants between the years 0000 and 9999, [begin_date] and
    [end_date] are [YYYYMMDD] strings that read back as the UTC calendar
    date of [now] and the UTC calendar date of the instant two local
    calendar days later.  That is two UTC dates after [begin_date] when
    the local offset is the same at both instants, and between one and
    three when the offsets differ by at most a day. *)
Theorem request_dates_read_back (offsetToday offsetThen today : Z) :
  -719528 <= today / msPerDay <= 2932896 ->
  -719528 <= setDatePlus2 offsetToday offsetThen today / msPerDay <= 2932896 ->
  exists y m d y' m' d',
    parseCompactDate (beginDate today) = Some (y, m, d) /\
    daysFromCivil y m d = today / msPerDay /\
    parseCompactDate (endDate offsetToday offsetThen today) = Some (y', m', d') /\
    daysFromCivil y' m' d' = setDatePlus2 offsetToday offsetThen today / msPerDay /\
    (offsetToday = offsetThen -> daysFromCivil y' m' d' = today / msPerDay + 2) /\
    (- msPerDay <= offsetToday - offsetThen <= msPerDay ->
     today / msPerDay + 1 <= daysFromCivil y' m' d' <= today / msPerDay + 3).
Proof.
  intros Hbegin Hend.
  destruct (civilFromDays (today / msPerDay)) as [[y m] d] eqn:Hb.
  destruct (civilFromDays (setDatePlus2 offsetToday offsetThen today / msPerDay))
    as [[y' m'] d'] eqn:He.
  exists y, m, d, y', m', d'.
  destruct (civil_roundtrip _ _ _ _ Hb) as (Hbd & _).
  destruct (civil_roundtrip _ _ _ _ He) as (Hed & _).
  unfold beginDate, endDate. cbv zeta.
  rewrite !compact_date_reads_back by assumption. rewrite Hb, He.
  repeat split; try assumption.
  - intros ->. rewrite Hed. unfold setDatePlus2. change msPerDay with 86400000.
    Z.div_mod_to_equations. lia.
  - rewrite Hed. unfold setDatePlus2. change msPerDay with 86400000 in *.
    Z.div_mod_to_equations. lia.
  - rewrite Hed. unfold setDatePlus2. change msPerDay with 86400000 in *.
    Z.div_mod_to_equations. lia.
Qed.

Lemma request_dates_read_back_witness :
  exists y m d y' m' d',
    parseCompactDate (beginDate exNov1Evening) = Some (y, m, d) /\
    daysFromCivil y m d = exNov1Evening / msPerDay /\
    parseCompactDate (endDate EDT EST exNov1Evening) = Some (y', m', d') /\
    daysFromCivil y' m' d' = setDatePlus2 EDT EST exNov1Evening / msPerDay /\
    (EDT = EST -> daysFromCivil y' m' d' = exNov1Evening / msPerDay + 2) /\
    (- msPerDay <= EDT - EST <= msPerDay ->
     exNov1Evening / msPerDay + 1 <= daysFromCivil y' m' d'
     <= exNov1Evening / msPerDay + 3).
Proof.
  apply (request_dates_read_back EDT EST exNov1Evening);
    vm_compute; split; discriminate.
Defined.

(** X19: [begin_date] is the UTC date, the times of the answer are local.
    For a zone at or west of UTC, [begin_date] is the local calendar date
    of [now], except in the last hours of the local day, as many as the
    zone is behind UTC, when it is the date of the next local day. *)
Theorem request_begins_on_next_local_day_in_the_evening (localOffset today : Z) :
  - msPerDay < localOffset <= 0 ->
  -719528 <= today / msPerDay <= 2932896 ->
  exists y m d,
    parseCompactDate (beginDate today) = Some (y, m, d) /\
    daysFromCivil y m d
    = (today + localOffset) / msPerDay
      + (if msPerDay + localOffset <=? (today + localOffset) mod msPerDay then 1 else 0).
Proof.
  intros Hoff Hrange.
  destruct (civilFromDays (today / msPerDay)) as [[y m] d] eqn:Hb.
  exists y, m, d. unfold beginDate.
  rewrite compact_date_reads_back, Hb by exact Hrange.
  destruct (civil_roundtrip _ _ _ _ Hb) as (-> & _).
  split; [reflexivity |].
  change msPerDay with 86400000 in *.
  destruct (Z.leb_spec (86400000 + localOffset) ((today + localOffset) mod 86400000));
    Z.div_mod_to_equations; lia.
Qed.

Lemma request_begins_on_next_local_day_in_the_evening_witness :
  exists y m d,
    parseCompactDate (beginDate exEightPM) = Some (y, m, d) /\
    daysFromCivil y m d
    = (exEightPM + EDT) / msPerDay
      + (if msPerDay + EDT <=? (exEightPM + EDT) mod msPerDay then 1 else 0).
Proof.
  apply (request_begins_on_next_local_day_in_the_evening EDT exEightPM).
  - vm_compute. split; [reflexivity | discriminate].
  - vm_compute. split; discriminate.
Defined.

(** ** Instances on the example inputs *)

Lemma loading_shown_while_in_flight_witness :
  loadingPanel (applyUpdates exComponent (firstn 3 (snd (exFetch exOk exSevenAM)))) = true /\
  dataPanel (applyUpdates exComponent (firstn 3 (snd (exFetch exOk exSevenAM)))) = None /\
  loadingPanel (exAfterFetch exOk exSevenAM exComponent) = false.
Proof.
  apply (loading_shown_while_in_flight (enUSTimeString EDT) (enUSDateString EDT)
           (noaaDateParse EDT) oneDecimalHeight exOk exSevenAM exComponent 3).
  simpl. lia.
Defined.

Lemma failed_fetch_message_witness :
  (exists message,
      error (exAfterFetch exServiceUnavailable exEightPM exComponent) = Some message /\
      errorPanel (exAfterFetch exServiceUnavailable exEightPM exComponent) = Some message /\
      String.prefix "Failed to fetch tide data: " message = true) /\
  (forall status body,
      exServiceUnavailable = inr (mkResponse false status body) ->
      error (exAfterFetch exServiceUnavailable exEightPM exComponent)
      = Some (String.append "Failed to fetch tide data: NOAA API error: "
                (statusToString status))).
Proof.
  apply (failed_fetch_message (enUSTimeString EDT) (enUSDateString EDT)
           (noaaDateParse EDT) oneDecimalHeight exServiceUnavailable exEightPM exComponent).
  reflexivity.
Defined.

Lemma dataset_is_from_last_successful_fetch_witness :
  tideData (exRunFetches initialComponent
              ([(exServiceUnavailable, exSevenAM)]
                 ++ (exOk, exNineAM) :: [(exServiceUnavailable, exEightPM)]))
  = Some (buildTideData (map exNormalize exPredictions) exNineAM).
Proof.
  destruct (dataset_is_from_last_successful_fetch (enUSTimeString EDT) (enUSDateString EDT)
              (noaaDateParse EDT) oneDecimalHeight initialComponent) as [_ Hlast].
  apply (Hlast [(exServiceUnavailable, exSevenAM)] 200 exPredictions exNineAM
           [(exServiceUnavailable, exEightPM)]).
  intros f [<- | []]. reflexivity.
Defined.

Lemma panels_after_fetches_witness :
  loadingPanel (exRunFetches initialComponent
                  ([(exOk, exNineAM)] ++ [(exServiceUnavailable, exEightPM)])) = false /\
  (exists message,
      errorPanel (exRunFetches initialComponent
                    ([(exOk, exNineAM)] ++ [(exServiceUnavailable, exEightPM)]))
      = Some message) /\
  dataPanel (exRunFetches initialComponent
               ([(exOk, exNineAM)] ++ [(exServiceUnavailable, exEightPM)]))
  = tideData (exRunFetches initialComponent [(exOk, exNineAM)]) /\
  (renderScreen (exRunFetches initialComponent ([] ++ [(exOkEmpty, exNineAM)])) = None <->
   exists d, tideData (exRunFetches initialComponent ([] ++ [(exOkEmpty, exNineAM)])) = Some d /\
             nextTide d = None).
Proof.
  destruct (panels_after_fetches (enUSTimeString EDT) (enUSDateString EDT)
              (noaaDateParse EDT) oneDecimalHeight initialComponent
              [(exOk, exNineAM)] exServiceUnavailable exEightPM)
    as (Hloading & Hfailed & _ & _).
  destruct (Hfailed eq_refl) as (Herror & Hdata).
  destruct (panels_after_fetches (enUSTimeString EDT) (enUSDateString EDT)
              (noaaDateParse EDT) oneDecimalHeight initialComponent
              [] exOkEmpty exNineAM)
    as (_ & _ & _ & Hthrows & _).
  split; [exact Hloading |]. split; [exact Herror |]. split; [exact Hdata | exact Hthrows].
Defined.

Lemma normalize_kinds_witness :
  List.length (map exNormalize exPredictions) = List.length exPredictions /\
  (forall tide, In tide (map exNormalize exPredictions) ->
                type tide = "High" \/ type tide = "Low").
Proof.
  destruct (normalize_kinds (enUSTimeString EDT) (enUSDateString EDT)
              (noaaDateParse EDT) oneDecimalHeight exPredictions) as (Hlen & Hkinds & _).
  split; [exact Hlen | exact Hkinds].
Defined.
